(** * Local Food Wastage Management System: the query-and-render layer

    A shallow embedding of [food.py], the Streamlit dashboard over the
    SQLite file [food_wastage.db], and the properties of its data access
    functions ([fetch_data], [execute_query]) and of its five pages.

    Conventions of the embedding.
    - Python [str] is [string] (a byte string; Python compares strings by
      code point, which is the byte order of their UTF-8 encoding).
    - Python [int] and SQLite INTEGER are [Z].
    - [datetime.date] is the record [date]; SQLite has no date type, the
      column [Expiry_Date] holds TEXT and is compared as TEXT.
    - The four tables are lists of records in rowid order.
    - Exceptions and the effects on the database file, on the set of open
      connections and on the rendered page are threaded through the monad
      [App].
    - The widgets that carry data or input are recorded (metrics, charts,
      tables, selectors, form inputs, the confirmation); titles,
      subheaders, dividers and the column layout are not.  The sidebar
      selection and what the user picks or types are the inputs of a run
      ([request]). *)

From Stdlib Require Import List String Ascii ZArith NArith Arith Bool Lia.
From Stdlib Require Import QArith.
From Stdlib Require Import Permutation Sorted.
Import ListNotations.

Local Open Scope string_scope.
Local Open Scope list_scope.
Local Open Scope Z_scope.

Set Implicit Arguments.

(* ================================================================== *)
(** ** Strings: Python's [sorted] and pandas' [unique] *)
(* ================================================================== *)

Module Str.

(** [a < b] on Python strings. *)
Definition lt (a b : string) : Prop := String.compare a b = Lt.

(** [a <= b] on Python strings. *)
Definition le (a b : string) : Prop := String.leb a b = true.

(** [x in l]. *)
Fixpoint mem (x : string) (l : list string) : bool :=
  match l with
  | [] => false
  | y :: l' => String.eqb x y || mem x l'
  end.

(** [Series.unique()]: the distinct values in order of first appearance. *)
Fixpoint unique_from (seen : list string) (l : list string) : list string :=
  match l with
  | [] => []
  | x :: l' =>
      if mem x seen then unique_from seen l'
      else x :: unique_from (x :: seen) l'
  end.

Definition unique (l : list string) : list string := unique_from [] l.

(** [sorted(l)] on strings.  Python's sort is stable and the order on
    strings is total with [a <= b <= a] only for [a = b], so every
    stable sort returns the same list; it is written here as an
    insertion sort. *)
Fixpoint insert (x : string) (l : list string) : list string :=
  match l with
  | [] => [x]
  | y :: l' => if String.leb x y then x :: y :: l' else y :: insert x l'
  end.

Fixpoint sorted (l : list string) : list string :=
  match l with
  | [] => []
  | x :: l' => insert x (sorted l')
  end.

End Str.

(* ================================================================== *)
(** ** Calendar dates *)
(* ================================================================== *)

(** [datetime.date]. *)
Record date : Type := mkDate { year : N; month : N; day : N }.

(** The range of [datetime.date]: years 1 to 9999 ([MINYEAR], [MAXYEAR]);
    the day bound is the loosest one, which is all the text order needs. *)
Definition valid_date (d : date) : Prop :=
  (1 <= year d <= 9999 /\ 1 <= month d <= 12 /\ 1 <= day d <= 31)%N.

(** Chronological order, [d1 < d2] and [d1 <= d2] on [datetime.date]. *)
Definition date_ltb (d1 d2 : date) : bool :=
  (year d1 <? year d2)%N
  || ((year d1 =? year d2)%N
      && ((month d1 <? month d2)%N
          || ((month d1 =? month d2)%N && (day d1 <? day d2)%N))).

Definition date_lt (d1 d2 : date) : Prop := date_ltb d1 d2 = true.

Definition date_leb (d1 d2 : date) : bool := negb (date_ltb d2 d1).

Definition date_le (d1 d2 : date) : Prop := date_leb d1 d2 = true.

(** The decimal digit [n mod 10] as a character. *)
Definition digit (n : N) : ascii := ascii_of_N (48 + n mod 10).

(** ["%02d"] and ["%04d"]. *)
Definition pad2 (n : N) : string :=
  String (digit (n / 10)) (String (digit n) EmptyString).

Definition pad4 (n : N) : string :=
  String (digit (n / 1000)) (String (digit (n / 100))
    (String (digit (n / 10)) (String (digit n) EmptyString))).

(** [date.isoformat()], ["YYYY-MM-DD"]: the text that the [sqlite3] module
    binds for a [datetime.date] parameter, and the format of SQLite's
    [DATE('now')]. *)
Definition isoformat (d : date) : string :=
  pad4 (year d) ++ "-" ++ pad2 (month d) ++ "-" ++ pad2 (day d).

(* ================================================================== *)
(** ** The persisted store *)
(* ================================================================== *)

(** Table [providers]; the columns the program names. *)
Record provider : Type := mkProvider {
  p_Provider_ID : Z;
  p_Name : string;
  p_Type : string;
  p_City : string;
  p_Contact : string
}.

(** Table [receivers]. *)
Record receiver : Type := mkReceiver {
  r_Receiver_ID : Z;
  r_Name : string;
  r_City : string
}.

(** Table [food_listings]. *)
Record food_listing : Type := mkListing {
  f_Food_ID : Z;
  f_Food_Name : string;
  f_Quantity : Z;
  f_Expiry_Date : string;
  f_Provider_ID : Z;
  f_Provider_Type : string;
  f_Location : string;
  f_Food_Type : string;
  f_Meal_Type : string
}.

(** Table [claims]. *)
Record claim : Type := mkClaim {
  c_Claim_ID : Z;
  c_Food_ID : Z;
  c_Receiver_ID : Z;
  c_Status : string;
  c_Timestamp : string
}.

(** The contents of [food_wastage.db]. *)
Record database : Type := mkDatabase {
  providers : list provider;
  receivers : list receiver;
  food_listings : list food_listing;
  claims : list claim
}.

Inductive table : Type := T_providers | T_receivers | T_food_listings.

Definition row_count (t : table) (db : database) : nat :=
  match t with
  | T_providers => List.length (providers db)
  | T_receivers => List.length (receivers db)
  | T_food_listings => List.length (food_listings db)
  end.

(* ================================================================== *)
(** ** Result tables *)
(* ================================================================== *)

(** A cell of a result: SQLite's storage classes.  REAL appears only as
    the result of [AVG] and is kept as the exact quotient. *)
Inductive value : Type :=
| VNull
| VInt (n : Z)
| VText (s : string)
| VReal (q : Q).

(** A [pandas.DataFrame] as [pd.read_sql] builds it: the column labels in
    the order of the SELECT list and the rows in the order the engine
    returns them. *)
Record DataFrame : Type := mkFrame {
  columns : list string;
  rows : list (list value)
}.

(** [df.shape[1]]. *)
Definition shape1 (df : DataFrame) : nat := List.length (columns df).

(* ================================================================== *)
(** ** The SQL the program issues *)
(* ================================================================== *)

Module Sql.

(** [FROM a JOIN b ON on]: the inner join, as nested loops. *)
Definition join (A B : Type) (on : A -> B -> bool)
    (la : list A) (lb : list B) : list (A * B) :=
  flat_map (fun a => map (pair a) (filter (on a) lb)) la.

(** [GROUP BY key]: one group per distinct key, each with its rows in
    table order; the groups come out in ascending key order, as SQLite
    produces them when it groups through a sorter. *)
Definition group_by (A : Type) (key : A -> string) (l : list A)
    : list (string * list A) :=
  map (fun k => (k, filter (fun a => String.eqb (key a) k) l))
      (Str.sorted (Str.unique (map key l))).

(** [ORDER BY n DESC] on (key, n) pairs; ties keep their order. *)
Fixpoint insert_desc (x : string * Z) (l : list (string * Z))
    : list (string * Z) :=
  match l with
  | [] => [x]
  | y :: l' =>
      if snd y <=? snd x then x :: y :: l' else y :: insert_desc x l'
  end.

Definition order_by_desc (l : list (string * Z)) : list (string * Z) :=
  fold_right insert_desc [] l.

(** [COUNT( * )] and [SUM(Quantity)] over a non-empty group. *)
Definition count (A : Type) (g : list A) : Z := Z.of_nat (List.length g).

Definition sum (A : Type) (f : A -> Z) (g : list A) : Z :=
  fold_right (fun a acc => f a + acc) 0 g.

(** [SUM] over a whole table: NULL when there is no row. *)
Definition sum_or_null (A : Type) (f : A -> Z) (g : list A) : value :=
  match g with
  | [] => VNull
  | _ => VInt (sum f g)
  end.

(** [AVG] over a non-empty group. *)
Definition avg (A : Type) (f : A -> Z) (g : list A) : value :=
  VReal (Qmake (sum f g) (Pos.of_nat (List.length g))).

Definition key_int_rows (l : list (string * Z)) : list (list value) :=
  map (fun kn => [VText (fst kn); VInt (snd kn)]) l.

(** [SELECT key, agg(...) ... GROUP BY key] with an integer aggregate. *)
Definition grouped (A : Type) (key : A -> string) (agg : list A -> Z)
    (l : list A) : list (string * Z) :=
  map (fun kg => (fst kg, agg (snd kg))) (group_by key l).

(** [c JOIN food_listings f ON c.Food_ID = f.Food_ID]. *)
Definition claims_listings (db : database) : list (claim * food_listing) :=
  join (fun c f => c_Food_ID c =? f_Food_ID f) (claims db) (food_listings db).

(** [c JOIN receivers r ON c.Receiver_ID = r.Receiver_ID]. *)
Definition claims_receivers (db : database) : list (claim * receiver) :=
  join (fun c r => c_Receiver_ID c =? r_Receiver_ID r)
       (claims db) (receivers db).

(** [claims c JOIN food_listings f ON c.Food_ID = f.Food_ID
     JOIN receivers r ON c.Receiver_ID = r.Receiver_ID]. *)
Definition claims_listings_receivers (db : database)
    : list ((claim * food_listing) * receiver) :=
  join (fun cf r => c_Receiver_ID (fst cf) =? r_Receiver_ID r)
       (claims_listings db) (receivers db).

(** [claims c JOIN receivers r ON ... JOIN food_listings f ON ...]. *)
Definition claims_receivers_listings (db : database)
    : list ((claim * receiver) * food_listing) :=
  join (fun cr f => c_Food_ID (fst cr) =? f_Food_ID f)
       (claims_receivers db) (food_listings db).

(** [claims c JOIN food_listings f ON ... JOIN providers p
     ON f.Provider_ID = p.Provider_ID]. *)
Definition claims_listings_providers (db : database)
    : list ((claim * food_listing) * provider) :=
  join (fun cf p => f_Provider_ID (snd cf) =? p_Provider_ID p)
       (claims_listings db) (providers db).

(** [food_listings f JOIN providers p ON f.Provider_ID = p.Provider_ID]. *)
Definition listings_providers (db : database)
    : list (food_listing * provider) :=
  join (fun f p => f_Provider_ID f =? p_Provider_ID p)
       (food_listings db) (providers db).

(** [WHERE Expiry_Date < DATE('now')]: both sides are TEXT and SQLite
    compares TEXT bytewise. *)
Definition expired (now : date) (f : food_listing) : bool :=
  String.ltb (f_Expiry_Date f) (isoformat now).

Definition expired_listings (now : date) (db : database)
    : list food_listing :=
  filter (expired now) (food_listings db).

(** The SELECT list [Food_Name, Expiry_Date, Location]. *)
Definition expired_row (f : food_listing) : list value :=
  [VText (f_Food_Name f); VText (f_Expiry_Date f); VText (f_Location f)].

(** The SELECT list [c.Claim_ID, f.Food_Name, r.Name AS Receiver_Name,
    c.Status, c.Timestamp]. *)
Definition claim_row (cfr : (claim * food_listing) * receiver)
    : list value :=
  let c := fst (fst cfr) in
  let f := snd (fst cfr) in
  let r := snd cfr in
  [VInt (c_Claim_ID c); VText (f_Food_Name f); VText (r_Name r);
   VText (c_Status c); VText (c_Timestamp c)].

End Sql.

(** The fifteen entries of the dictionary [queries], in its order. *)
Inductive report : Type :=
| R1 | R2 | R3 | R4 | R5 | R6 | R7 | R8 | R9 | R10
| R11 | R12 | R13 | R14 | R15.

Definition all_reports : list report :=
  [R1; R2; R3; R4; R5; R6; R7; R8; R9; R10; R11; R12; R13; R14; R15].

(** [queries.keys()]. *)
Definition report_label (r : report) : string :=
  match r with
  | R1 => "1. Providers count by city"
  | R2 => "2. Receivers count by city"
  | R3 => "3. Provider type contributing most food"
  | R4 => "4. Provider contact details"
  | R5 => "5. Receivers who claimed most food"
  | R6 => "6. Total quantity of food available"
  | R7 => "7. City with highest food listings"
  | R8 => "8. Most commonly available food types"
  | R9 => "9. Number of claims per food item"
  | R10 => "10. Provider with highest successful claims"
  | R11 => "11. Claim status distribution"
  | R12 => "12. Average quantity claimed per receiver"
  | R13 => "13. Most claimed meal type"
  | R14 => "14. Total food donated by each provider"
  | R15 => "15. Expired food items"
  end.

(** The SELECT statements of the program.  The index is the type of the
    value that [pd.read_sql] returns for it: a [DataFrame], or, for
    [SELECT * FROM food_listings], whose columns the Listing Browser
    addresses by name, the rows as records. *)
Inductive query : Type -> Type :=
| SELECT_COUNT (t : table) : query DataFrame
| SELECT_listings_by_city : query DataFrame
| SELECT_STAR_food_listings : query (list food_listing)
| SELECT_claims : query DataFrame
| SELECT_report (r : report) : query DataFrame.

(** The column labels of each report, from its SELECT list. *)
Definition report_columns (r : report) : list string :=
  match r with
  | R1 => ["City"; "Provider_Count"]
  | R2 => ["City"; "Receiver_Count"]
  | R3 => ["Provider_Type"; "Total_Quantity"]
  | R4 => ["Name"; "Type"; "City"; "Contact"]
  | R5 => ["Name"; "Total_Claims"]
  | R6 => ["Total_Food_Quantity"]
  | R7 => ["Location"; "Listings"]
  | R8 => ["Food_Type"; "Count"]
  | R9 => ["Food_Name"; "Claim_Count"]
  | R10 => ["Name"; "Successful_Claims"]
  | R11 => ["Status"; "Count"]
  | R12 => ["Name"; "Avg_Quantity"]
  | R13 => ["Meal_Type"; "Claims"]
  | R14 => ["Name"; "Total_Donated"]
  | R15 => ["Food_Name"; "Expiry_Date"; "Location"]
  end.

(** The rows of each report on a store, with [now] the value of
    [DATE('now')]. *)
Definition report_rows (now : date) (db : database) (r : report)
    : list (list value) :=
  match r with
  | R1 => Sql.key_int_rows (Sql.grouped p_City (@Sql.count _) (providers db))
  | R2 => Sql.key_int_rows (Sql.grouped r_City (@Sql.count _) (receivers db))
  | R3 => Sql.key_int_rows
            (Sql.grouped f_Provider_Type (Sql.sum f_Quantity)
               (food_listings db))
  | R4 => map (fun p => [VText (p_Name p); VText (p_Type p);
                         VText (p_City p); VText (p_Contact p)])
              (providers db)
  | R5 => Sql.key_int_rows
            (Sql.order_by_desc
               (Sql.grouped (fun cr => r_Name (snd cr)) (@Sql.count _)
                  (Sql.claims_receivers db)))
  | R6 => [[Sql.sum_or_null f_Quantity (food_listings db)]]
  | R7 => Sql.key_int_rows
            (Sql.order_by_desc
               (Sql.grouped f_Location (@Sql.count _) (food_listings db)))
  | R8 => Sql.key_int_rows
            (Sql.grouped f_Food_Type (@Sql.count _) (food_listings db))
  | R9 => Sql.key_int_rows
            (Sql.grouped (fun cf => f_Food_Name (snd cf)) (@Sql.count _)
               (Sql.claims_listings db))
  | R10 => Sql.key_int_rows
             (Sql.order_by_desc
                (Sql.grouped (fun cfp => p_Name (snd cfp)) (@Sql.count _)
                   (filter
                      (fun cfp =>
                         String.eqb (c_Status (fst (fst cfp))) "Completed")
                      (Sql.claims_listings_providers db))))
  | R11 => Sql.key_int_rows
             (Sql.grouped c_Status (@Sql.count _) (claims db))
  | R12 => map (fun kg => [VText (fst kg);
                           Sql.avg (fun crf => f_Quantity (snd crf)) (snd kg)])
               (Sql.group_by (fun crf => r_Name (snd (fst crf)))
                  (Sql.claims_receivers_listings db))
  | R13 => Sql.key_int_rows
             (Sql.order_by_desc
                (Sql.grouped (fun cf => f_Meal_Type (snd cf)) (@Sql.count _)
                   (Sql.claims_listings db)))
  | R14 => Sql.key_int_rows
             (Sql.order_by_desc
                (Sql.grouped (fun fp => p_Name (snd fp))
                   (Sql.sum (fun fp => f_Quantity (fst fp)))
                   (Sql.listings_providers db)))
  | R15 => map Sql.expired_row (Sql.expired_listings now db)
  end.

(** What the engine returns for a SELECT. *)
Definition eval_query (A : Type) (q : query A) (now : date) (db : database)
    : A :=
  match q in query T return T with
  | SELECT_COUNT t =>
      mkFrame ["c"] [[VInt (Z.of_nat (row_count t db))]]
  | SELECT_listings_by_city =>
      mkFrame ["Location"; "Listings"]
        (Sql.key_int_rows
           (Sql.grouped f_Location (@Sql.count _) (food_listings db)))
  | SELECT_STAR_food_listings => food_listings db
  | SELECT_claims =>
      mkFrame ["Claim_ID"; "Food_Name"; "Receiver_Name"; "Status"; "Timestamp"]
        (map Sql.claim_row (Sql.claims_listings_receivers db))
  | SELECT_report r => mkFrame (report_columns r) (report_rows now db r)
  end.

(* ================================================================== *)
(** ** The INSERT of the Listing Creator *)
(* ================================================================== *)

(** A Python value passed as a statement parameter. *)
Inductive pyval : Type :=
| PyStr (s : string)
| PyInt (n : Z)
| PyDate (d : date).

(** The mutating statements of the program: the one INSERT, with its
    eight [?] placeholders. *)
Inductive statement : Type :=
| INSERT_INTO_food_listings.

Inductive step : Type := Connect | Cursor | Execute | Commit | Read.

(** The exceptions of [sqlite3] and [pandas] that can reach the pages. *)
Inductive exn : Type :=
| OperationalError (at_step : step)
| ProgrammingError
| IntegrityError
| KeyError
| IndexError.

Inductive outcome (A : Type) : Type :=
| Ok (a : A)
| Raise (e : exn).

Arguments Ok {A} a.
Arguments Raise {A} e.

(** How the [sqlite3] module binds a Python value: [str] as TEXT, [int]
    as INTEGER, [datetime.date] as the TEXT of [isoformat()]. *)
Definition adapt (v : pyval) : value :=
  match v with
  | PyStr s => VText s
  | PyInt n => VInt n
  | PyDate d => VText (isoformat d)
  end.

(** Modelled from the spec: the CREATE TABLE of [food_listings] is not part
    of the program; the store assigns the identity of a new listing.  It is
    taken as SQLite assigns a rowid: one more than the largest in use. *)
Definition next_Food_ID (l : list food_listing) : Z :=
  1 + fold_right Z.max 0 (map f_Food_ID l).

(** [INSERT INTO food_listings (Food_Name, Quantity, Expiry_Date,
    Provider_ID, Provider_Type, Location, Food_Type, Meal_Type)
    VALUES (?, ?, ?, ?, ?, ?, ?, ?)] with the bound values [vs].  The
    number of values must be the number of placeholders; the columns are
    typed, and a value of another storage class is refused. *)
Definition insert_listing (vs : list value) (db : database)
    : outcome database :=
  match vs with
  | [v1; v2; v3; v4; v5; v6; v7; v8] =>
      match v1, v2, v3, v4, v5, v6, v7, v8 with
      | VText food_name, VInt quantity, VText expiry, VInt provider_id,
        VText provider_type, VText location, VText food_type,
        VText meal_type =>
          Ok (mkDatabase (providers db) (receivers db)
                (food_listings db ++
                   [mkListing (next_Food_ID (food_listings db)) food_name
                      quantity expiry provider_id provider_type location
                      food_type meal_type])
                (claims db))
      | _, _, _, _, _, _, _, _ => Raise IntegrityError
      end
  | _ => Raise ProgrammingError
  end.

Definition run_statement (s : statement) (params : list pyval)
    (db : database) : outcome database :=
  match s with
  | INSERT_INTO_food_listings => insert_listing (map adapt params) db
  end.

(* ================================================================== *)
(** ** The page, the connections and the effects *)
(* ================================================================== *)

(** [df.set_index(name)]: the frame with one column moved to the index. *)
Record IndexedFrame : Type := mkIndexed {
  index_name : string;
  index : list value;
  data : DataFrame
}.

(** What Streamlit has been asked to draw. *)
Inductive widget : Type :=
| Metric (label : string) (v : value)
| BarChart (chart : IndexedFrame)
| Dataframe (df : DataFrame)
| Selectbox (label : string) (options : list string)
| TextInput (label : string)
| NumberInput (label : string) (min_value : Z)
| DateInput (label : string) (min_value : date)
| FormSubmitButton (label : string)
| Success (msg : string).

(** What the database driver has been asked to do, per connection. *)
Inductive event : Type :=
| Opened (h : nat)
| CursorMade (h : nat)
| Executed (h : nat) (s : statement) (params : list pyval)
| Committed (h : nat)
| Closed (h : nat)
| ReadSql (h : nat).

(** The state a run of the script acts on. *)
Record world : Type := mkWorld {
  store : database;       (* the committed contents of the file *)
  sql_now : date;         (* the engine's [DATE('now')] *)
  today : date;           (* Python's [date.today()] *)
  fails : step -> bool;   (* the driver steps that raise OperationalError *)
  open_conns : list (nat * option database);
                          (* open connections, each with its uncommitted
                             work, if it has any *)
  next_handle : nat;
  log : list event;       (* most recent last *)
  screen : list widget    (* most recent last *)
}.

(** Computations that may raise, over the world. *)
Definition App (A : Type) : Type := world -> outcome A * world.

Definition ret (A : Type) (a : A) : App A := fun w => (Ok a, w).

Definition raise (A : Type) (e : exn) : App A := fun w => (Raise e, w).

Arguments raise {A} e.

Definition bind (A B : Type) (m : App A) (k : A -> App B) : App B :=
  fun w =>
    match m w with
    | (Ok a, w') => k a w'
    | (Raise e, w') => (Raise e, w')
    end.

Declare Scope app_scope.
Delimit Scope app_scope with app.
Notation "x <- m ;; k" := (bind m (fun x => k))
  (at level 100, m at next level, right associativity) : app_scope.
Notation "m ;; k" := (bind m (fun _ => k))
  (at level 100, right associativity) : app_scope.
Local Open Scope app_scope.

Definition get (A : Type) (f : world -> A) : App A := fun w => (Ok (f w), w).

Definition emit (e : event) : App unit :=
  fun w => (Ok tt, mkWorld (store w) (sql_now w) (today w) (fails w) (open_conns w)
                     (next_handle w) (log w ++ [e]) (screen w)).

Definition draw (x : widget) : App unit :=
  fun w => (Ok tt, mkWorld (store w) (sql_now w) (today w) (fails w) (open_conns w)
                     (next_handle w) (log w) (screen w ++ [x])).

Definition set_conns (cs : list (nat * option database)) : App unit :=
  fun w => (Ok tt, mkWorld (store w) (sql_now w) (today w) (fails w) cs
                     (next_handle w) (log w) (screen w)).

Definition set_store (db : database) : App unit :=
  fun w => (Ok tt, mkWorld db (sql_now w) (today w) (fails w) (open_conns w)
                     (next_handle w) (log w) (screen w)).

(** A driver step that the environment can make fail. *)
Definition attempt (s : step) : App unit :=
  fun w => if fails w s then (Raise (OperationalError s), w) else (Ok tt, w).

Module Conns.

Fixpoint find (h : nat) (cs : list (nat * option database))
    : option (option database) :=
  match cs with
  | [] => None
  | (h', x) :: cs' => if Nat.eqb h h' then Some x else find h cs'
  end.

Fixpoint update (h : nat) (x : option database)
    (cs : list (nat * option database)) : list (nat * option database) :=
  match cs with
  | [] => []
  | (h', y) :: cs' =>
      if Nat.eqb h h' then (h', x) :: cs' else (h', y) :: update h x cs'
  end.

Definition remove (h : nat) (cs : list (nat * option database))
    : list (nat * option database) :=
  filter (fun c => negb (Nat.eqb h (fst c))) cs.

Definition is_open (h : nat) (cs : list (nat * option database)) : bool :=
  match find h cs with
  | Some _ => true
  | None => false
  end.

End Conns.

(** The uncommitted work of an open connection; a closed one raises. *)
Definition pending (h : nat) : App (option database) :=
  cs <- get open_conns ;;
  match Conns.find h cs with
  | Some x => ret x
  | None => raise ProgrammingError
  end.

(** What connection [h] sees: its own uncommitted work over the file. *)
Definition snapshot (h : nat) : App database :=
  x <- pending h ;;
  match x with
  | Some db => ret db
  | None => get store
  end.

(** [sqlite3.connect(DB_PATH)]. *)
Definition sqlite3_connect : App nat :=
  attempt Connect ;;
  h <- get next_handle ;;
  (fun w => (Ok tt, mkWorld (store w) (sql_now w) (today w) (fails w)
                      (open_conns w ++ [(h, None)]) (S h) (log w)
                      (screen w))) ;;
  emit (Opened h) ;;
  ret h.

(** [conn.cursor()]. *)
Definition conn_cursor (conn : nat) : App nat :=
  _ <- pending conn ;;
  attempt Cursor ;;
  emit (CursorMade conn) ;;
  ret conn.

(** [cur.execute(query, params)]: the statement runs on the connection's
    view of the store, inside its transaction. *)
Definition cur_execute (cur : nat) (query : statement) (params : list pyval)
    : App unit :=
  db <- snapshot cur ;;
  attempt Execute ;;
  match run_statement query params db with
  | Ok db' =>
      cs <- get open_conns ;;
      set_conns (Conns.update cur (Some db') cs) ;;
      emit (Executed cur query params)
  | Raise e => raise e
  end.

(** [conn.commit()]: the connection's work becomes the file's contents. *)
Definition conn_commit (conn : nat) : App unit :=
  x <- pending conn ;;
  attempt Commit ;;
  match x with
  | Some db =>
      set_store db ;;
      cs <- get open_conns ;;
      set_conns (Conns.update conn None cs)
  | None => ret tt
  end ;;
  emit (Committed conn).

(** [conn.close()]: uncommitted work is dropped. *)
Definition conn_close (conn : nat) : App unit :=
  cs <- get open_conns ;;
  set_conns (Conns.remove conn cs) ;;
  emit (Closed conn).

(** [pd.read_sql(query, conn)]. *)
Definition pd_read_sql (A : Type) (query : query A) (conn : nat) : App A :=
  db <- snapshot conn ;;
  attempt Read ;;
  now <- get sql_now ;;
  emit (ReadSql conn) ;;
  ret (eval_query query now db).

(* ================================================================== *)
(** ** Database connection (food.py, lines 18 to 35) *)
(* ================================================================== *)

Definition get_connection : App nat := sqlite3_connect.

Definition fetch_data (A : Type) (query : query A) : App A :=
  conn <- get_connection ;;
  df <- pd_read_sql query conn ;;
  conn_close conn ;;
  ret df.

(** [if params:] is false for [None] and for an empty tuple. *)
Definition truthy (params : option (list pyval)) : bool :=
  match params with
  | Some (_ :: _) => true
  | _ => false
  end.

Definition execute_query (query : statement) (params : option (list pyval))
    : App unit :=
  conn <- get_connection ;;
  cur <- conn_cursor conn ;;
  (if truthy params
   then cur_execute cur query (match params with Some p => p | None => [] end)
   else cur_execute cur query []) ;;
  conn_commit conn ;;
  conn_close conn.

(* ================================================================== *)
(** ** pandas and Streamlit calls of the pages *)
(* ================================================================== *)

Module Pandas.

(** The position of a label among the column labels. *)
Fixpoint position (name : string) (cols : list string) : option nat :=
  match cols with
  | [] => None
  | c :: cols' =>
      if String.eqb name c then Some O
      else option_map S (position name cols')
  end.

Definition cell (i : nat) (row : list value) : value := nth i row VNull.

Definition drop_nth (A : Type) (i : nat) (l : list A) : list A :=
  firstn i l ++ skipn (S i) l.

(** [df[name]]: the values of one column; [KeyError] without it. *)
Definition getitem (df : DataFrame) (name : string) : App (list value) :=
  match position name (columns df) with
  | Some i => ret (map (cell i) (rows df))
  | None => raise KeyError
  end.

(** [series[0]] on the default index: [KeyError] on an empty series. *)
Definition at0 (series : list value) : App value :=
  match series with
  | v :: _ => ret v
  | [] => raise KeyError
  end.

(** [df.columns[0]]. *)
Definition columns0 (df : DataFrame) : App string :=
  match columns df with
  | c :: _ => ret c
  | [] => raise IndexError
  end.

(** [df.set_index(name)]. *)
Definition set_index (df : DataFrame) (name : string) : App IndexedFrame :=
  match position name (columns df) with
  | Some i =>
      ret (mkIndexed name (map (cell i) (rows df))
             (mkFrame (drop_nth i (columns df))
                (map (drop_nth (A:=value) i) (rows df))))
  | None => raise KeyError
  end.

(** The frame of [SELECT * FROM food_listings], for display: the
    identity, then the columns in the order of the INSERT's list. *)
Definition listings_frame (df : list food_listing) : DataFrame :=
  mkFrame
    ["Food_ID"; "Food_Name"; "Quantity"; "Expiry_Date"; "Provider_ID";
     "Provider_Type"; "Location"; "Food_Type"; "Meal_Type"]
    (map (fun f =>
            [VInt (f_Food_ID f); VText (f_Food_Name f);
             VInt (f_Quantity f); VText (f_Expiry_Date f);
             VInt (f_Provider_ID f); VText (f_Provider_Type f);
             VText (f_Location f); VText (f_Food_Type f);
             VText (f_Meal_Type f)])
         df).

End Pandas.

Module St.

Definition metric (label : string) (v : value) : App unit :=
  draw (Metric label v).

Definition bar_chart (chart : IndexedFrame) : App unit :=
  draw (BarChart chart).

Definition dataframe (df : DataFrame) : App unit := draw (Dataframe df).

Definition success (msg : string) : App unit := draw (Success msg).

(** [st.selectbox(label, options)]: draws the control and returns the
    user's selection [choice]. *)
Definition selectbox (A : Type) (label : string) (options : list string)
    (choice : A) : App A :=
  draw (Selectbox label options) ;; ret choice.

Definition text_input (label : string) (typed : string) : App string :=
  draw (TextInput label) ;; ret typed.

Definition number_input (label : string) (min_value : Z) (typed : Z)
    : App Z :=
  draw (NumberInput label min_value) ;; ret typed.

Definition date_input (label : string) (min_value : date) (picked : date)
    : App date :=
  draw (DateInput label min_value) ;; ret picked.

(** [st.form_submit_button(label)]: true in the run that the press of
    the button triggers. *)
Definition form_submit_button (label : string) (pressed : bool) : App bool :=
  draw (FormSubmitButton label) ;; ret pressed.

End St.

(* ================================================================== *)
(** ** The five pages (food.py, lines 61 to 243) *)
(* ================================================================== *)

(** One metric of the Dashboard:
    [fetch_data("SELECT COUNT( * ) AS c FROM t")["c"][0]]. *)
Definition count_metric (t : table) : App value :=
  df <- fetch_data (SELECT_COUNT t) ;;
  c <- Pandas.getitem df "c" ;;
  Pandas.at0 c.

Definition dashboard : App unit :=
  n <- count_metric T_providers ;;
  St.metric "Total Providers" n ;;
  n <- count_metric T_receivers ;;
  St.metric "Total Receivers" n ;;
  n <- count_metric T_food_listings ;;
  St.metric "Total Food Listings" n ;;
  city_df <- fetch_data SELECT_listings_by_city ;;
  chart <- Pandas.set_index city_df "Location" ;;
  St.bar_chart chart.

(** The options of a filter selector:
    [["All"] + sorted(df[column].unique())]. *)
Definition filter_options (column : food_listing -> string)
    (df : list food_listing) : list string :=
  ["All"] ++ Str.sorted (Str.unique (map column df)).

(** [if choice != "All": df = df[df[column] == choice]]. *)
Definition apply_filter (column : food_listing -> string) (choice : string)
    (df : list food_listing) : list food_listing :=
  if negb (String.eqb choice "All")
  then filter (fun f => String.eqb (column f) choice) df
  else df.

(** Lines 103 to 108: the three filters, in the order of the script. *)
Definition filter_listings (city food_type meal_type : string)
    (df : list food_listing) : list food_listing :=
  let df := apply_filter f_Location city df in
  let df := apply_filter f_Food_Type food_type df in
  let df := apply_filter f_Meal_Type meal_type df in
  df.

Definition view_food_listings (city_choice food_type_choice
    meal_type_choice : string) : App unit :=
  df <- fetch_data SELECT_STAR_food_listings ;;
  city <- St.selectbox "City" (filter_options f_Location df) city_choice ;;
  food_type <- St.selectbox "Food Type" (filter_options f_Food_Type df)
                 food_type_choice ;;
  meal_type <- St.selectbox "Meal Type" (filter_options f_Meal_Type df)
                 meal_type_choice ;;
  St.dataframe
    (Pandas.listings_frame (filter_listings city food_type meal_type df)).

Definition claims_management : App unit :=
  claims_df <- fetch_data SELECT_claims ;;
  St.dataframe claims_df.

(** [queries[selected_query]]. *)
Definition queries (selected_query : report) : query DataFrame :=
  SELECT_report selected_query.

(** Lines 213 to 216: the table, and for a result of two columns the bar
    chart of the result indexed by its first column. *)
Definition show_result (result_df : DataFrame) : App unit :=
  St.dataframe result_df ;;
  if Nat.eqb (shape1 result_df) 2
  then
    c0 <- Pandas.columns0 result_df ;;
    chart <- Pandas.set_index result_df c0 ;;
    St.bar_chart chart
  else ret tt.

Definition sql_analysis (choice : report) : App unit :=
  selected_query <- St.selectbox "Select a Query"
                      (map report_label all_reports) choice ;;
  result_df <- fetch_data (queries selected_query) ;;
  show_result result_df.

(** What the user has entered in the form [add_food]. *)
Record form : Type := mkForm {
  food_name : string;
  quantity : Z;
  expiry : date;
  provider_id : Z;
  provider_type : string;
  location : string;
  food_type : string;
  meal_type : string
}.

(** The tuple of parameters of the INSERT. *)
Definition form_params (f : form) : list pyval :=
  [PyStr (food_name f); PyInt (quantity f); PyDate (expiry f);
   PyInt (provider_id f); PyStr (provider_type f); PyStr (location f);
   PyStr (food_type f); PyStr (meal_type f)].

Definition add_new_food_listing (entered : form) (pressed : bool)
    : App unit :=
  food_name <- St.text_input "Food Name" (food_name entered) ;;
  quantity <- St.number_input "Quantity" 1 (quantity entered) ;;
  day0 <- get today ;;
  expiry <- St.date_input "Expiry Date" day0 (expiry entered) ;;
  provider_id <- St.number_input "Provider ID" 1 (provider_id entered) ;;
  provider_type <- St.text_input "Provider Type" (provider_type entered) ;;
  location <- St.text_input "City" (location entered) ;;
  food_type <- St.selectbox "Food Type"
                 ["Vegetarian"; "Non-Vegetarian"; "Vegan"]
                 (food_type entered) ;;
  meal_type <- St.selectbox "Meal Type"
                 ["Breakfast"; "Lunch"; "Dinner"; "Snacks"]
                 (meal_type entered) ;;
  submit <- St.form_submit_button "Add Food" pressed ;;
  if submit : bool
  then
    execute_query INSERT_INTO_food_listings
      (Some [PyStr food_name; PyInt quantity; PyDate expiry;
             PyInt provider_id; PyStr provider_type; PyStr location;
             PyStr food_type; PyStr meal_type]) ;;
    St.success "Food listing added successfully!"
  else ret tt.

(** The client-side constraints of the form: [min_value=1] on the
    quantity and [min_value=date.today()] on the expiry date. *)
Definition form_constraints (day0 : date) (f : form) : Prop :=
  1 <= quantity f /\ date_le day0 (expiry f).

(** The sidebar selection with the inputs of the page it selects. *)
Inductive request : Type :=
| Dashboard
| View_Food_Listings (city food_type meal_type : string)
| Claims_Management
| SQL_Analysis (selected_query : report)
| Add_New_Food_Listing (entered : form) (pressed : bool).

(** One run of the script. *)
Definition run_script (page : request) : App unit :=
  match page with
  | Dashboard => dashboard
  | View_Food_Listings city food_type meal_type =>
      view_food_listings city food_type meal_type
  | Claims_Management => claims_management
  | SQL_Analysis selected_query => sql_analysis selected_query
  | Add_New_Food_Listing entered pressed =>
      add_new_food_listing entered pressed
  end.

(* ================================================================== *)
(** ** Statements of the properties: auxiliary notions *)
(* ================================================================== *)

(** Every open connection has a handle below the next one to be given
    out.  It holds of a world with no connection and every driver call
    keeps it. *)
Definition fresh_handles (w : world) : Prop :=
  Forall (fun c => (fst c < next_handle w)%nat) (open_conns w).

(** The world while a call holds its connection: the connection is open
    with uncommitted work [work], and the driver has logged [es]. *)
Definition in_flight (w : world) (work : option database) (es : list event)
    : world :=
  mkWorld (store w) (sql_now w) (today w) (fails w)
    (open_conns w ++ [(next_handle w, work)]) (S (next_handle w))
    (log w ++ es) (screen w).

(** The world with further driver events and one more handle used, and
    otherwise as it was. *)
Definition after_call (w : world) (db : database) (es : list event)
    : world :=
  mkWorld db (sql_now w) (today w) (fails w) (open_conns w)
    (S (next_handle w)) (log w ++ es) (screen w).

(** The world with more drawn on the page. *)
Definition drawn (w : world) (xs : list widget) : world :=
  mkWorld (store w) (sql_now w) (today w) (fails w) (open_conns w)
    (next_handle w) (log w) (screen w ++ xs).

(** The world after one successful read on a fresh connection. *)
Definition after_read (w : world) : world :=
  after_call w (store w)
    [Opened (next_handle w); ReadSql (next_handle w);
     Closed (next_handle w)].

(** The world after one metric of the Dashboard has been fetched and
    drawn. *)
Definition after_metric (label : string) (t : table) (w : world) : world :=
  drawn (after_read w)
    [Metric label (VInt (Z.of_nat (row_count t (store w))))].

(** No driver step fails. *)
Definition healthy (w : world) : Prop := forall s, fails w s = false.

(** The parameters that [execute_query] hands to [cur.execute]. *)
Definition bound_params (params : option (list pyval)) : list pyval :=
  match params with
  | Some p => p
  | None => []
  end.

(** The three filter dimensions of the Listing Browser. *)
Inductive dimension : Type := By_City | By_Food_Type | By_Meal_Type.

Definition dimension_column (d : dimension) : food_listing -> string :=
  match d with
  | By_City => f_Location
  | By_Food_Type => f_Food_Type
  | By_Meal_Type => f_Meal_Type
  end.

(** The filters applied one after the other in a given order. *)
Definition filter_in_order (order : list dimension)
    (choice : dimension -> string) (df : list food_listing)
    : list food_listing :=
  fold_left (fun d dim => apply_filter (dimension_column dim) (choice dim) d)
            order df.

Definition choices (city food_type meal_type : string) (d : dimension)
    : string :=
  match d with
  | By_City => city
  | By_Food_Type => food_type
  | By_Meal_Type => meal_type
  end.

(** The rows that a filter keeps: all of them for ["All"]. *)
Definition keeps (column : food_listing -> string) (choice : string)
    (f : food_listing) : bool :=
  if String.eqb choice "All" then true else String.eqb (column f) choice.

(** The widgets of the form [add_food]. *)
Definition form_widgets (day0 : date) : list widget :=
  [TextInput "Food Name"; NumberInput "Quantity" 1;
   DateInput "Expiry Date" day0; NumberInput "Provider ID" 1;
   TextInput "Provider Type"; TextInput "City";
   Selectbox "Food Type" ["Vegetarian"; "Non-Vegetarian"; "Vegan"];
   Selectbox "Meal Type" ["Breakfast"; "Lunch"; "Dinner"; "Snacks"];
   FormSubmitButton "Add Food"].

(** Every expiry date of the store is the ISO text of a calendar date,
    as the Listing Creator writes it. *)
Definition iso_dated (db : database) : Prop :=
  forall f, In f (food_listings db) ->
            exists d, valid_date d /\ f_Expiry_Date f = isoformat d.

(** A computation keeps a property of the world, whether it returns or
    raises. *)
Definition preserves (P : world -> Prop) (A : Type) (m : App A) : Prop :=
  forall w, P w -> P (snd (m w)).

(** The chart of a result: the first column as the index and the other
    columns as the data. *)
Definition first_column_chart (df : DataFrame) : IndexedFrame :=
  mkIndexed (hd EmptyString (columns df))
    (map (Pandas.cell 0) (rows df))
    (mkFrame (tl (columns df)) (map (@tl value) (rows df))).

(** The rows that one claim contributes to the Claims Browser. *)
Definition claim_rows (db : database) (c : claim) : list (list value) :=
  flat_map
    (fun f =>
       map (fun r => Sql.claim_row (c, f, r))
           (filter (fun r => c_Receiver_ID c =? r_Receiver_ID r)
                   (receivers db)))
    (filter (fun f => c_Food_ID c =? f_Food_ID f) (food_listings db)).

(** A claim whose listing or whose receiver is not in the store. *)
Definition dangling (db : database) (c : claim) : Prop :=
  (forall f, In f (food_listings db) -> f_Food_ID f <> c_Food_ID c)
  \/ (forall r, In r (receivers db) -> r_Receiver_ID r <> c_Receiver_ID c).

(** The driver events that are statement executions. *)
Definition is_execution (e : event) : bool :=
  match e with
  | Executed _ _ _ => true
  | _ => false
  end.

(** The row that the Listing Creator's INSERT adds for a form. *)
Definition listing_of_form (id : Z) (f : form) : food_listing :=
  mkListing id (food_name f) (quantity f) (isoformat (expiry f))
    (provider_id f) (provider_type f) (location f) (food_type f)
    (meal_type f).

(** The store after the INSERT of a form. *)
Definition with_listing (db : database) (entered : form) : database :=
  mkDatabase (providers db) (receivers db)
    (food_listings db
     ++ [listing_of_form (next_Food_ID (food_listings db)) entered])
    (claims db).

(** The world when the three metrics of the Dashboard have been drawn. *)
Definition after_metrics (w : world) : world :=
  after_metric "Total Food Listings" T_food_listings
    (after_metric "Total Receivers" T_receivers
       (after_metric "Total Providers" T_providers w)).

(** The connections that a page opens in one run. *)
Definition connections_used (page : request) : nat :=
  match page with
  | Dashboard => 4
  | View_Food_Listings _ _ _ => 1
  | Claims_Management => 1
  | SQL_Analysis _ => 1
  | Add_New_Food_Listing _ pressed => if pressed then 1 else 0
  end.

(** Whether a submission of the form gets as far as a successful
    commit. *)
Definition commits (pressed : bool) (w : world) : bool :=
  pressed && negb (fails w Connect) && negb (fails w Cursor)
  && negb (fails w Execute) && negb (fails w Commit).

(** The reports whose result has another number of columns than two. *)
Definition table_only (r : report) : bool :=
  match r with
  | R4 | R6 | R15 => true
  | _ => false
  end.

(** The reports with [ORDER BY ... DESC]. *)
Definition ranked_report (r : report) : bool :=
  match r with
  | R5 | R7 | R10 | R13 | R14 => true
  | _ => false
  end.

(** [a] is listed before [b] under [ORDER BY n DESC]. *)
Definition listed_before (a b : string * Z) : Prop := snd b <= snd a.

(** The rows that a ranked report groups, read off its FROM, JOIN and
    WHERE clauses as the pairs of the product of the tables that meet
    the conditions; each with the name of its group and what it adds to
    the number of the group: 1 under COUNT, the quantity under
    SUM(f.Quantity). *)
Definition contributions (db : database) (r : report) : list (string * Z) :=
  match r with
  | R5 =>
      map (fun cr => (r_Name (snd cr), 1))
          (filter (fun cr => c_Receiver_ID (fst cr) =? r_Receiver_ID (snd cr))
                  (list_prod (claims db) (receivers db)))
  | R7 => map (fun f => (f_Location f, 1)) (food_listings db)
  | R10 =>
      map (fun cfp => (p_Name (snd cfp), 1))
          (filter (fun cfp =>
                     (c_Food_ID (fst (fst cfp)) =? f_Food_ID (snd (fst cfp)))
                     && (f_Provider_ID (snd (fst cfp))
                         =? p_Provider_ID (snd cfp))
                     && String.eqb (c_Status (fst (fst cfp))) "Completed")
                  (list_prod (list_prod (claims db) (food_listings db))
                             (providers db)))
  | R13 =>
      map (fun cf => (f_Meal_Type (snd cf), 1))
          (filter (fun cf => c_Food_ID (fst cf) =? f_Food_ID (snd cf))
                  (list_prod (claims db) (food_listings db)))
  | R14 =>
      map (fun fp => (p_Name (snd fp), f_Quantity (fst fp)))
          (filter (fun fp => f_Provider_ID (fst fp) =? p_Provider_ID (snd fp))
                  (list_prod (food_listings db) (providers db)))
  | _ => []
  end.

(* ================================================================== *)
(** ** A sample store *)
(* ================================================================== *)

Module Sample.

Definition the_store : database :=
  mkDatabase
    [mkProvider 1 "Bakery One" "Bakery" "A" "111";
     mkProvider 2 "Corner Shop" "Shop" "A" "222";
     mkProvider 3 "Green Grocer" "Shop" "B" "333"]
    [mkReceiver 1 "Rita" "A"; mkReceiver 2 "Sam" "B"]
    [mkListing 1 "Bread" 10 "2025-03-17" 1 "Bakery" "Pune" "Vegetarian"
       "Breakfast";
     mkListing 2 "Rice" 5 "2025-03-20" 2 "Shop" "Delhi" "Vegan" "Lunch";
     mkListing 4 "Soup" 7 "2025-03-10" 3 "Shop" "Pune" "Vegan" "Dinner"]
    [mkClaim 1 1 1 "Completed" "2025-03-01 10:00:00";
     mkClaim 2 9 1 "Pending" "2025-03-02 11:00:00";
     mkClaim 3 2 7 "Pending" "2025-03-03 12:00:00";
     mkClaim 4 4 2 "Completed" "2025-03-04 13:00:00"].

Definition the_day : date := mkDate 2025 3 17.

Definition step_eqb (a b : step) : bool :=
  match a, b with
  | Connect, Connect | Cursor, Cursor | Execute, Execute
  | Commit, Commit | Read, Read => true
  | _, _ => false
  end.

(** A run that starts with no connection open, in which the driver
    fails at the steps that [broken] selects. *)
Definition world_where (broken : step -> bool) : world :=
  mkWorld the_store the_day the_day broken [] 0 [] [].

Definition sound_world : world := world_where (fun _ => false).

Definition failing_at (s : step) : world := world_where (step_eqb s).

Definition the_form : form :=
  mkForm "Bread Loaves" 10 (mkDate 2025 3 18) 1 "Bakery" "Springfield"
    "Vegetarian" "Breakfast".

(** The sample store without the claims that refer to nothing. *)
Definition tidy_store : database :=
  mkDatabase (providers the_store) (receivers the_store)
    (food_listings the_store)
    [mkClaim 1 1 1 "Completed" "2025-03-01 10:00:00";
     mkClaim 4 4 2 "Completed" "2025-03-04 13:00:00"].

(** A store whose expiry dates are not ISO dates: 17 March 2025 in
    another format, no date at all, and 5 March 2025 without padding. *)
Definition mixed_store : database :=
  mkDatabase [] []
    [mkListing 1 "Bread" 10 "3/17/2025" 1 "Bakery" "Pune" "Vegetarian"
       "Breakfast";
     mkListing 2 "Curd" 4 "" 1 "Bakery" "Pune" "Vegetarian" "Lunch";
     mkListing 3 "Rice" 5 "2025-3-5" 2 "Shop" "Delhi" "Vegan" "Lunch"]
    [].

Definition empty_store : database := mkDatabase [] [] [] [].

Definition empty_world : world :=
  mkWorld empty_store the_day the_day (fun _ => false) [] 0 [] [].

(** Result tables of one, two, three and five columns. *)
Definition table_of_width (n : nat) : DataFrame :=
  mkFrame (firstn n ["a"; "b"; "c"; "d"; "e"])
    [firstn n [VText "x"; VInt 1; VInt 2; VInt 3; VInt 4];
     firstn n [VText "y"; VInt 5; VInt 6; VInt 7; VInt 8]].

End Sample.

(* ================================================================== *)
(** ** Connections: lookup lemmas *)
(* ================================================================== *)

Section ConnLemmas.

Variable h : nat.

Let below (cs : list (nat * option database)) : Prop :=
  Forall (fun c => (fst c < h)%nat) cs.

Lemma find_fresh cs (x : option database) :
  below cs -> Conns.find h (cs ++ [(h, x)]) = Some x.
Proof.
  induction 1 as [|[h' y] l Hlt _ IH]; simpl.
  - now rewrite Nat.eqb_refl.
  - simpl in Hlt. destruct (Nat.eqb_spec h h'); [lia | exact IH].
Qed.

Lemma update_fresh cs (x y : option database) :
  below cs -> Conns.update h y (cs ++ [(h, x)]) = cs ++ [(h, y)].
Proof.
  induction 1 as [|[h' z] l Hlt _ IH]; simpl.
  - now rewrite Nat.eqb_refl.
  - simpl in Hlt. destruct (Nat.eqb_spec h h'); [lia | now rewrite IH].
Qed.

Lemma remove_fresh cs (x : option database) :
  below cs -> Conns.remove h (cs ++ [(h, x)]) = cs.
Proof.
  unfold Conns.remove.
  induction 1 as [|[h' z] l Hlt _ IH]; simpl.
  - now rewrite Nat.eqb_refl.
  - simpl in Hlt.
    destruct (Nat.eqb_spec h h'); [lia | simpl; now rewrite IH].
Qed.

Lemma is_open_fresh cs (x : option database) :
  below cs -> Conns.is_open h (cs ++ [(h, x)]) = true.
Proof. intros Hb. unfold Conns.is_open. now rewrite find_fresh. Qed.

End ConnLemmas.

(* ================================================================== *)
(** ** The data access functions, step by step *)
(* ================================================================== *)

(** Reduce the projections of a world that has just been built. *)
Ltac step_world :=
  cbn [next_handle store sql_now today fails open_conns log screen].

(** [fetch_data] in full: what it returns and the world it leaves, for
    each way the driver can behave. *)
Lemma fetch_data_run (A : Type) (q : query A) (w : world) :
  fresh_handles w ->
  fetch_data q w =
    if fails w Connect then (Raise (OperationalError Connect), w)
    else if fails w Read
    then (Raise (OperationalError Read),
          in_flight w None [Opened (next_handle w)])
    else (Ok (eval_query q (sql_now w) (store w)),
          after_call w (store w)
            [Opened (next_handle w); ReadSql (next_handle w);
             Closed (next_handle w)]).
Proof.
  intros Hf.
  unfold fetch_data, get_connection, sqlite3_connect, pd_read_sql, snapshot,
    pending, conn_close, bind, attempt, get, emit, set_conns, ret, raise.
  destruct (fails w Connect) eqn:Hc; [reflexivity|]. simpl.
  rewrite find_fresh by exact Hf. simpl.
  destruct (fails w Read) eqn:Hr; [reflexivity|]. simpl.
  rewrite remove_fresh by exact Hf. unfold after_call.
  now rewrite <- !app_assoc.
Qed.

(** [execute_query] in full. *)
Lemma execute_query_run (q : statement) (params : option (list pyval))
    (w : world) :
  fresh_handles w ->
  let h := next_handle w in
  let p := bound_params params in
  execute_query q params w =
    if fails w Connect then (Raise (OperationalError Connect), w)
    else if fails w Cursor
    then (Raise (OperationalError Cursor), in_flight w None [Opened h])
    else if fails w Execute
    then (Raise (OperationalError Execute),
          in_flight w None [Opened h; CursorMade h])
    else
      match run_statement q p (store w) with
      | Raise e => (Raise e, in_flight w None [Opened h; CursorMade h])
      | Ok db' =>
          if fails w Commit
          then (Raise (OperationalError Commit),
                in_flight w (Some db')
                  [Opened h; CursorMade h; Executed h q p])
          else (Ok tt,
                after_call w db'
                  [Opened h; CursorMade h; Executed h q p; Committed h;
                   Closed h])
      end.
Proof.
  intros Hf h p. subst h p.
  unfold execute_query, get_connection, sqlite3_connect, conn_cursor,
    conn_commit, conn_close.
  destruct params as [[|v l]|]; cbn [truthy bound_params];
    unfold cur_execute, snapshot, pending, bind, attempt, get, emit,
      set_conns, set_store, ret, raise;
    (destruct (fails w Connect) eqn:Hc; [reflexivity|]);
    step_world; rewrite find_fresh by exact Hf; step_world;
    (destruct (fails w Cursor) eqn:Hcu; [reflexivity|]);
    step_world; rewrite find_fresh by exact Hf; step_world;
    (destruct (fails w Execute) eqn:Hex;
       [unfold in_flight; now rewrite <- !app_assoc|]);
    (match goal with
     | |- context [run_statement q ?p (store w)] =>
         destruct (run_statement q p (store w)) as [db'|e] eqn:Hrun
     end;
     [|unfold in_flight; now rewrite <- !app_assoc]);
    step_world; rewrite update_fresh by exact Hf;
    rewrite find_fresh by exact Hf; step_world;
    (destruct (fails w Commit) eqn:Hco;
       [unfold in_flight; now rewrite <- !app_assoc|]);
    step_world; rewrite update_fresh by exact Hf;
    rewrite remove_fresh by exact Hf;
    unfold after_call; now rewrite <- !app_assoc.
Qed.

Lemma fresh_after_call (w : world) (db : database) (es : list event) :
  fresh_handles w -> fresh_handles (after_call w db es).
Proof.
  unfold fresh_handles, after_call. step_world.
  apply Forall_impl. intros c Hc. lia.
Qed.

Lemma not_open_fresh (h : nat) (cs : list (nat * option database)) :
  Forall (fun c => (fst c < h)%nat) cs -> Conns.is_open h cs = false.
Proof.
  unfold Conns.is_open.
  induction 1 as [|[h' x] l Hlt _ IH]; simpl; [reflexivity|].
  simpl in Hlt. destruct (Nat.eqb_spec h h'); [lia | exact IH].
Qed.

(** A read leaves the file as it was, however the driver behaves. *)
Lemma fetch_data_read_only (A : Type) (q : query A) (w : world) :
  fresh_handles w -> store (snd (fetch_data q w)) = store w.
Proof.
  intros Hf. rewrite fetch_data_run by exact Hf.
  destruct (fails w Connect), (fails w Read); reflexivity.
Qed.

(* ================================================================== *)
(** ** Data Access Layer *)
(* ================================================================== *)

(** C9.  A call of [fetch_data] that has obtained its connection closes
    it before it returns the result when the read succeeds: the set of
    open connections is then what it was before the call and the driver
    has seen open, read, close in this order.  When the read raises, the
    exception leaves [fetch_data] with the connection still open and
    never closed: the read path has no guarded release either. *)
Theorem fetch_data_release (A : Type) (q : query A) (w : world) :
  fresh_handles w ->
  fails w Connect = false ->
  let h := next_handle w in
  (fails w Read = false ->
     fetch_data q w =
       (Ok (eval_query q (sql_now w) (store w)),
        after_call w (store w) [Opened h; ReadSql h; Closed h])
     /\ open_conns (snd (fetch_data q w)) = open_conns w
     /\ Conns.is_open h (open_conns (snd (fetch_data q w))) = false)
  /\ (fails w Read = true ->
     fetch_data q w =
       (Raise (OperationalError Read), in_flight w None [Opened h])
     /\ Conns.is_open h (open_conns (snd (fetch_data q w))) = true
     /\ log (snd (fetch_data q w)) = log w ++ [Opened h]).
Proof.
  intros Hf Hc h. rewrite fetch_data_run by exact Hf. rewrite Hc.
  split; intros Hr; rewrite Hr; cbn [snd].
  - repeat split. unfold after_call. step_world.
    now apply not_open_fresh.
  - repeat split. unfold in_flight. step_world.
    now apply is_open_fresh.
Qed.

(** C2, as the program has it.  [execute_query] hands the statement and
    its parameters to the driver separately, so the parameters are bound
    and not spliced into the text.  When no step fails the work is
    committed before the connection is closed, the file then holds the
    result of the statement and the connection is released.  When any
    step after the connection has been obtained raises (the cursor, the
    statement or the commit), the connection is left open and is never
    closed, and the file is unchanged. *)
Theorem execute_query_release (q : statement) (params : option (list pyval))
    (w : world) :
  fresh_handles w ->
  fails w Connect = false ->
  let h := next_handle w in
  let p := bound_params params in
  (forall db',
     fails w Cursor = false -> fails w Execute = false ->
     fails w Commit = false -> run_statement q p (store w) = Ok db' ->
     execute_query q params w =
       (Ok tt,
        after_call w db'
          [Opened h; CursorMade h; Executed h q p; Committed h; Closed h]))
  /\ (forall e w',
        execute_query q params w = (Raise e, w') ->
        Conns.is_open h (open_conns w') = true
        /\ store w' = store w
        /\ (exists es, log w' = log w ++ es /\ ~ In (Closed h) es)
        /\ (e = OperationalError Cursor \/ e = OperationalError Execute
            \/ e = OperationalError Commit
            \/ run_statement q p (store w) = Raise e)).
Proof.
  intros Hf Hc h p. rewrite (execute_query_run q params Hf). rewrite Hc.
  fold h p. split.
  - intros db' Hcu Hex Hco Hrun. now rewrite Hcu, Hex, Hrun, Hco.
  - intros e w'.
    assert (Hopen : forall x es,
               Conns.is_open h (open_conns (in_flight w x es)) = true).
    { intros x es. unfold in_flight. step_world. now apply is_open_fresh. }
    assert (Hlog : forall es, ~ In (Closed h) es ->
               forall x, exists es', log (in_flight w x es) = log w ++ es'
                                     /\ ~ In (Closed h) es').
    { intros es Hes x. exists es. now split. }
    destruct (fails w Cursor).
    { intros [= <- <-]. repeat split; auto.
      apply Hlog. simpl. intuition discriminate. }
    destruct (fails w Execute).
    { intros [= <- <-]. repeat split; auto.
      apply Hlog. simpl. intuition discriminate. }
    destruct (run_statement q p (store w)) as [db'|e'] eqn:Hrun.
    + destruct (fails w Commit); [|discriminate].
      intros [= <- <-]. repeat split; auto.
      apply Hlog. simpl. intuition discriminate.
    + intros [= <- <-]. repeat split; auto.
      apply Hlog. simpl. intuition discriminate.
Qed.

Lemma fetch_data_release_witness :
  fresh_handles (Sample.failing_at Read)
  /\ fails (Sample.failing_at Read) Connect = false
  /\ fetch_data (SELECT_COUNT T_providers) (Sample.failing_at Read) =
       (Raise (OperationalError Read),
        in_flight (Sample.failing_at Read) None [Opened 0%nat])
  /\ Conns.is_open 0
       (open_conns
          (snd (fetch_data (SELECT_COUNT T_providers)
                  (Sample.failing_at Read)))) = true.
Proof.
  split; [constructor|]. split; [reflexivity|].
  pose proof (@fetch_data_release _ (SELECT_COUNT T_providers)
                (Sample.failing_at Read) (Forall_nil _) eq_refl) as H.
  destruct H as [_ H]. specialize (H eq_refl).
  destruct H as (H1 & H2 & _). split; [exact H1 | exact H2].
Defined.

Lemma execute_query_release_witness :
  fresh_handles Sample.sound_world
  /\ fails Sample.sound_world Connect = false
  /\ execute_query INSERT_INTO_food_listings
       (Some (form_params Sample.the_form)) Sample.sound_world =
       (Ok tt,
        after_call Sample.sound_world
          (mkDatabase (providers Sample.the_store)
             (receivers Sample.the_store)
             (food_listings Sample.the_store
                ++ [listing_of_form 5 Sample.the_form])
             (claims Sample.the_store))
          [Opened 0%nat; CursorMade 0%nat;
           Executed 0%nat INSERT_INTO_food_listings
             (form_params Sample.the_form);
           Committed 0%nat; Closed 0%nat]).
Proof.
  split; [constructor|]. split; [reflexivity|].
  pose proof (@execute_query_release INSERT_INTO_food_listings
                (Some (form_params Sample.the_form)) Sample.sound_world
                (Forall_nil _) eq_refl) as H.
  destruct H as [H _].
  apply H; reflexivity.
Defined.

(** C2, the input that separates the claim from the program: the
    database is locked when the INSERT runs.  The statement raises, the
    commit is never reached (and would not have failed), and the
    connection opened by the call stays open. *)
Lemma execute_query_leaks_before_commit :
  execute_query INSERT_INTO_food_listings
    (Some (form_params Sample.the_form)) (Sample.failing_at Execute) =
    (Raise (OperationalError Execute),
     in_flight (Sample.failing_at Execute) None
       [Opened 0%nat; CursorMade 0%nat])
  /\ Conns.is_open 0
       (open_conns
          (snd (execute_query INSERT_INTO_food_listings
                  (Some (form_params Sample.the_form))
                  (Sample.failing_at Execute)))) = true
  /\ fails (Sample.failing_at Execute) Commit = false
  /\ OperationalError Execute <> OperationalError Commit.
Proof.
  repeat split; try reflexivity. discriminate.
Qed.

(* ================================================================== *)
(** ** Dashboard *)
(* ================================================================== *)

(** C6.  Each count query of the Dashboard leaves the store as it found
    it, whatever the driver does.  When the driver does not fail, the
    metric is the number of rows that the table holds at that moment
    (the length of the list of providers, of receivers or of listings of
    the store), which is 0, and not an error, for an empty table, and
    asking again gives the same number. *)
Theorem count_metric_row_count (t : table) (w : world) :
  fresh_handles w ->
  let n := match t with
           | T_providers => List.length (providers (store w))
           | T_receivers => List.length (receivers (store w))
           | T_food_listings => List.length (food_listings (store w))
           end in
  store (snd (count_metric t w)) = store w
  /\ (fails w Connect = false -> fails w Read = false ->
      let h := next_handle w in
      count_metric t w =
        (Ok (VInt (Z.of_nat n)),
         after_call w (store w) [Opened h; ReadSql h; Closed h])
      /\ (n = 0%nat -> fst (count_metric t w) = Ok (VInt 0))
      /\ fst (count_metric t (snd (count_metric t w))) =
           fst (count_metric t w)).
Proof.
  intros Hf n.
  assert (Hrun : forall w0, fresh_handles w0 ->
            count_metric t w0 =
              if fails w0 Connect
              then (Raise (OperationalError Connect), w0)
              else if fails w0 Read
              then (Raise (OperationalError Read),
                    in_flight w0 None [Opened (next_handle w0)])
              else (Ok (VInt (Z.of_nat (row_count t (store w0)))),
                    after_call w0 (store w0)
                      [Opened (next_handle w0); ReadSql (next_handle w0);
                       Closed (next_handle w0)])).
  { intros w0 H0. unfold count_metric, bind.
    rewrite fetch_data_run by exact H0.
    destruct (fails w0 Connect); [reflexivity|].
    destruct (fails w0 Read); reflexivity. }
  assert (Hn : row_count t (store w) = n) by (destruct t; reflexivity).
  split.
  - rewrite Hrun by exact Hf.
    destruct (fails w Connect), (fails w Read); reflexivity.
  - intros Hc Hr h. rewrite (Hrun w Hf), Hc, Hr, Hn. cbn [fst snd].
    split; [reflexivity|]. split.
    + intros ->. reflexivity.
    + subst h.
      remember (after_call w (store w)
                  [Opened (next_handle w); ReadSql (next_handle w);
                   Closed (next_handle w)]) as w1 eqn:Ew1.
      assert (Hf1 : fresh_handles w1) by (subst w1; now apply fresh_after_call).
      assert (E : fails w1 = fails w) by (subst w1; reflexivity).
      assert (Es : store w1 = store w) by (subst w1; reflexivity).
      rewrite (Hrun w1 Hf1), E, Hc, Hr, Es, Hn. reflexivity.
Qed.

Lemma count_metric_row_count_witness :
  fresh_handles Sample.sound_world
  /\ fresh_handles Sample.empty_world
  /\ fst (count_metric T_providers Sample.sound_world) = Ok (VInt 3)
  /\ fst (count_metric T_receivers Sample.sound_world) = Ok (VInt 2)
  /\ fst (count_metric T_food_listings Sample.sound_world) = Ok (VInt 3)
  /\ fst (count_metric T_providers Sample.empty_world) = Ok (VInt 0)
  /\ store (snd (count_metric T_food_listings Sample.sound_world)) =
       Sample.the_store.
Proof.
  split; [constructor|]. split; [constructor|].
  pose proof (@count_metric_row_count T_providers Sample.sound_world
                (Forall_nil _)) as [_ Hp].
  pose proof (@count_metric_row_count T_receivers Sample.sound_world
                (Forall_nil _)) as [_ Hr].
  pose proof (@count_metric_row_count T_food_listings Sample.sound_world
                (Forall_nil _)) as [Hs Hl].
  pose proof (@count_metric_row_count T_providers Sample.empty_world
                (Forall_nil _)) as [_ He].
  specialize (Hp eq_refl eq_refl). specialize (Hr eq_refl eq_refl).
  specialize (Hl eq_refl eq_refl). specialize (He eq_refl eq_refl).
  destruct Hp as (Hp & _). destruct Hr as (Hr & _).
  destruct Hl as (Hl & _). destruct He as (_ & He & _).
  split; [exact (f_equal fst Hp)|]. split; [exact (f_equal fst Hr)|].
  split; [exact (f_equal fst Hl)|]. split; [exact (He eq_refl)|].
  exact Hs.
Defined.

Lemma drop_first_column (rws : list (list value)) :
  map (Pandas.drop_nth (A:=value) 0) rws = map (@tl value) rws.
Proof. apply map_ext. intros [|v r]; reflexivity. Qed.

(** [count_metric] in full. *)
Lemma count_metric_run (t : table) (w : world) :
  fresh_handles w ->
  count_metric t w =
    if fails w Connect then (Raise (OperationalError Connect), w)
    else if fails w Read
    then (Raise (OperationalError Read),
          in_flight w None [Opened (next_handle w)])
    else (Ok (VInt (Z.of_nat (row_count t (store w)))),
          after_call w (store w)
            [Opened (next_handle w); ReadSql (next_handle w);
             Closed (next_handle w)]).
Proof.
  intros Hf. unfold count_metric, bind.
  rewrite fetch_data_run by exact Hf.
  destruct (fails w Connect); [reflexivity|].
  destruct (fails w Read); reflexivity.
Qed.

Lemma bind_ok (A B : Type) (m : App A) (k : A -> App B) (w w' : world)
    (a : A) :
  m w = (Ok a, w') -> bind m k w = k a w'.
Proof. intros H. unfold bind. now rewrite H. Qed.

Arguments bind_ok {A B m} k {w w' a} _.

Lemma draw_run (x : widget) (w : world) : draw x w = (Ok tt, drawn w [x]).
Proof. reflexivity. Qed.

Lemma get_run (A : Type) (f : world -> A) (w : world) :
  get f w = (Ok (f w), w).
Proof. reflexivity. Qed.

Lemma text_input_run (label typed : string) (w : world) :
  St.text_input label typed w = (Ok typed, drawn w [TextInput label]).
Proof. reflexivity. Qed.

Lemma number_input_run (label : string) (min_value typed : Z) (w : world) :
  St.number_input label min_value typed w =
  (Ok typed, drawn w [NumberInput label min_value]).
Proof. reflexivity. Qed.

Lemma date_input_run (label : string) (min_value picked : date)
    (w : world) :
  St.date_input label min_value picked w =
  (Ok picked, drawn w [DateInput label min_value]).
Proof. reflexivity. Qed.

Lemma form_submit_button_run (label : string) (pressed : bool) (w : world) :
  St.form_submit_button label pressed w =
  (Ok pressed, drawn w [FormSubmitButton label]).
Proof. reflexivity. Qed.

Lemma selectbox_run (A : Type) (label : string) (options : list string)
    (choice : A) (w : world) :
  St.selectbox label options choice w =
  (Ok choice, drawn w [Selectbox label options]).
Proof. reflexivity. Qed.

Lemma drawn_drawn (w : world) (xs ys : list widget) :
  drawn (drawn w xs) ys = drawn w (xs ++ ys).
Proof. unfold drawn. step_world. now rewrite <- app_assoc. Qed.

(** A statement when the driver does not fail and the engine accepts
    it. *)
Lemma execute_query_ok (q : statement) (params : option (list pyval))
    (w : world) (db' : database) :
  fresh_handles w -> healthy w ->
  run_statement q (bound_params params) (store w) = Ok db' ->
  execute_query q params w =
    (Ok tt,
     after_call w db'
       [Opened (next_handle w); CursorMade (next_handle w);
        Executed (next_handle w) q (bound_params params);
        Committed (next_handle w); Closed (next_handle w)]).
Proof.
  intros Hf Hh Hrun. rewrite (execute_query_run q params Hf).
  cbv zeta. now rewrite !Hh, Hrun.
Qed.

(** A read when the driver does not fail. *)
Lemma fetch_data_ok (A : Type) (q : query A) (w : world) :
  fresh_handles w -> healthy w ->
  fetch_data q w =
    (Ok (eval_query q (sql_now w) (store w)),
     after_call w (store w)
       [Opened (next_handle w); ReadSql (next_handle w);
        Closed (next_handle w)]).
Proof.
  intros Hf Hh. rewrite fetch_data_run by exact Hf. now rewrite !Hh.
Qed.

Lemma count_metric_ok (t : table) (w : world) :
  fresh_handles w -> healthy w ->
  count_metric t w =
    (Ok (VInt (Z.of_nat (row_count t (store w)))),
     after_call w (store w)
       [Opened (next_handle w); ReadSql (next_handle w);
        Closed (next_handle w)]).
Proof.
  intros Hf Hh. rewrite count_metric_run by exact Hf. now rewrite !Hh.
Qed.

Lemma after_read_facts (w : world) :
  fresh_handles w -> healthy w ->
  fresh_handles (after_read w) /\ healthy (after_read w)
  /\ store (after_read w) = store w /\ sql_now (after_read w) = sql_now w
  /\ screen (after_read w) = screen w.
Proof.
  intros Hf Hh. split; [now apply fresh_after_call|].
  split; [exact Hh|]. repeat split.
Qed.

Lemma after_metric_facts (label : string) (t : table) (w : world) :
  fresh_handles w -> healthy w ->
  fresh_handles (after_metric label t w) /\ healthy (after_metric label t w)
  /\ store (after_metric label t w) = store w
  /\ sql_now (after_metric label t w) = sql_now w
  /\ screen (after_metric label t w) =
       screen w ++ [Metric label (VInt (Z.of_nat (row_count t (store w))))].
Proof.
  intros Hf Hh. split; [now apply (fresh_after_call (store w))|].
  split; [exact Hh|]. repeat split.
Qed.

Lemma metric_step (B : Type) (label : string) (t : table)
    (k : unit -> App B) (w : world) :
  fresh_handles w -> healthy w ->
  bind (count_metric t) (fun n => bind (St.metric label n) k) w =
  k tt (after_metric label t w).
Proof.
  intros Hf Hh.
  rewrite (bind_ok _ (count_metric_ok t Hf Hh)).
  unfold St.metric. now rewrite (bind_ok _ (draw_run _ _)).
Qed.

Lemma city_chart (w : world) (now : date) (db : database) :
  Pandas.set_index (eval_query SELECT_listings_by_city now db) "Location" w =
  (Ok (first_column_chart (eval_query SELECT_listings_by_city now db)), w).
Proof.
  unfold Pandas.set_index, first_column_chart, ret.
  cbn [eval_query columns rows Pandas.position hd tl].
  rewrite String.eqb_refl. now rewrite drop_first_column.
Qed.

(** The Dashboard when the driver does not fail: the three counts and
    the chart of listings by city. *)
Lemma dashboard_run (w : world) :
  fresh_handles w -> healthy w ->
  fst (dashboard w) = Ok tt
  /\ store (snd (dashboard w)) = store w
  /\ screen (snd (dashboard w)) =
       screen w ++
       [Metric "Total Providers"
          (VInt (Z.of_nat (List.length (providers (store w)))));
        Metric "Total Receivers"
          (VInt (Z.of_nat (List.length (receivers (store w)))));
        Metric "Total Food Listings"
          (VInt (Z.of_nat (List.length (food_listings (store w)))));
        BarChart
          (first_column_chart
             (eval_query SELECT_listings_by_city (sql_now w) (store w)))].
Proof.
  intros Hf Hh.
  destruct (after_metric_facts "Total Providers" T_providers Hf Hh)
    as (Hf1 & Hh1 & Es1 & En1 & Esc1).
  destruct (after_metric_facts "Total Receivers" T_receivers Hf1 Hh1)
    as (Hf2 & Hh2 & Es2 & En2 & Esc2).
  destruct (after_metric_facts "Total Food Listings" T_food_listings Hf2 Hh2)
    as (Hf3 & Hh3 & Es3 & En3 & Esc3).
  destruct (after_read_facts Hf3 Hh3) as (_ & _ & Es4 & En4 & Esc4).
  unfold dashboard.
  rewrite (metric_step _ _ _ Hf Hh), (metric_step _ _ _ Hf1 Hh1),
    (metric_step _ _ _ Hf2 Hh2).
  rewrite (bind_ok _ (fetch_data_ok SELECT_listings_by_city Hf3 Hh3)).
  fold (after_read
          (after_metric "Total Food Listings" T_food_listings
             (after_metric "Total Receivers" T_receivers
                (after_metric "Total Providers" T_providers w)))).
  rewrite (bind_ok _ (city_chart _ _ _)).
  unfold St.bar_chart. rewrite draw_run. cbn [fst snd].
  split; [reflexivity|]. split.
  - change (store (drawn ?x ?y)) with (store x).
    now rewrite Es4, Es3, Es2, Es1.
  - change (screen (drawn ?x ?y)) with (screen x ++ y).
    rewrite Esc4, Esc3, Esc2, Esc1, Es3, Es2, Es1, En3, En2, En1.
    rewrite <- !app_assoc. reflexivity.
Qed.

(* ================================================================== *)
(** ** Report Runner *)
(* ================================================================== *)

(** C1.  What the Report Runner draws for a result is decided by the
    number of columns of the result alone, the length of its list of
    column labels, at the time of drawing.  For a result of exactly two
    columns it draws the bar chart whose category axis (index) is the
    first column and whose measured values are the second column; for a
    result of any other number of columns it draws the generic table and
    no chart.  (The generic table is drawn first in every case, also
    above the chart.)  Drawing never raises. *)
Theorem show_result_by_column_count (result_df : DataFrame) (w : world) :
  show_result result_df w =
    (Ok tt,
     drawn w
       (Dataframe result_df ::
        (if Nat.eqb (List.length (columns result_df)) 2
         then [BarChart (first_column_chart result_df)]
         else []))).
Proof.
  unfold show_result, bind, St.dataframe, St.bar_chart, draw, shape1, drawn.
  destruct result_df as [cols rws]. cbn [columns rows].
  destruct (Nat.eqb_spec (List.length cols) 2) as [Hlen|Hlen].
  - destruct cols as [|c0 [|c1 [|c2 cols]]]; try discriminate Hlen.
    unfold Pandas.columns0, Pandas.set_index, ret, first_column_chart.
    cbn [columns rows Pandas.position hd tl].
    rewrite String.eqb_refl. step_world.
    rewrite <- app_assoc. cbn [app].
    now rewrite drop_first_column.
  - unfold ret. step_world. reflexivity.
Qed.

(** Results of 1, 2, 3 and 5 columns: only the one of two columns gets a
    chart. *)
Example show_result_widths :
  map (fun n =>
         List.length
           (screen (snd (show_result (Sample.table_of_width n)
                           Sample.sound_world))))
      [1; 2; 3; 5]%nat
  = [1; 2; 1; 1]%nat.
Proof. reflexivity. Qed.

(** The Report Runner when the driver does not fail: the selector with
    the fifteen labels, one read, and then the result of the selected
    query handed to [show_result]. *)
Lemma sql_analysis_run (r : report) (w : world) :
  fresh_handles w -> healthy w ->
  sql_analysis r w =
    show_result (eval_query (queries r) (sql_now w) (store w))
      (after_read
         (drawn w [Selectbox "Select a Query"
                     (map report_label all_reports)])).
Proof.
  intros Hf Hh. unfold sql_analysis.
  rewrite (bind_ok _ (selectbox_run _ _ _ _)).
  assert (Hf1 : fresh_handles
                  (drawn w [Selectbox "Select a Query"
                              (map report_label all_reports)]))
    by exact Hf.
  assert (Hh1 : healthy
                  (drawn w [Selectbox "Select a Query"
                              (map report_label all_reports)]))
    by exact Hh.
  now rewrite (bind_ok _ (fetch_data_ok (queries r) Hf1 Hh1)).
Qed.

(** The reports that come with a chart: all but the contact list (4),
    the total quantity (6) and the expired items (15). *)
Example charted_reports :
  filter (fun r => Nat.eqb (List.length (report_columns r)) 2) all_reports
  = [R1; R2; R3; R5; R7; R8; R9; R10; R11; R12; R13; R14].
Proof. reflexivity. Qed.

(* ================================================================== *)
(** ** Listing Browser: the filters *)
(* ================================================================== *)

Lemma apply_filter_keeps column choice df :
  apply_filter column choice df = filter (keeps column choice) df.
Proof.
  unfold apply_filter, keeps.
  destruct (String.eqb choice "All"); cbn [negb].
  - induction df as [|f df IH]; [reflexivity|]. simpl. now rewrite <- IH.
  - reflexivity.
Qed.

Lemma filter_swap (A : Type) (p q : A -> bool) (l : list A) :
  filter p (filter q l) = filter q (filter p l).
Proof.
  induction l as [|a l IH]; [reflexivity|]. simpl.
  destruct (q a) eqn:Hq, (p a) eqn:Hp; simpl; rewrite ?Hq, ?Hp, IH;
    reflexivity.
Qed.

Lemma apply_filter_swap c1 x1 c2 x2 df :
  apply_filter c1 x1 (apply_filter c2 x2 df) =
  apply_filter c2 x2 (apply_filter c1 x1 df).
Proof. rewrite !apply_filter_keeps. apply filter_swap. Qed.

Lemma filter_in_order_perm (choice : dimension -> string)
    (o1 o2 : list dimension) :
  Permutation o1 o2 ->
  forall df, filter_in_order o1 choice df = filter_in_order o2 choice df.
Proof.
  unfold filter_in_order.
  induction 1 as [|d o1 o2 _ IH|d1 d2 o|o1 o2 o3 _ IH1 _ IH2]; intros df.
  - reflexivity.
  - simpl. apply IH.
  - simpl. now rewrite apply_filter_swap.
  - now rewrite IH1.
Qed.

(** The filtered listing set as one filter by the conjunction. *)
Lemma filter_listings_conj city food_type meal_type df :
  filter_listings city food_type meal_type df =
  filter (fun f => keeps f_Location city f
                   && keeps f_Food_Type food_type f
                   && keeps f_Meal_Type meal_type f) df.
Proof.
  unfold filter_listings. rewrite !apply_filter_keeps.
  induction df as [|f df IH]; [reflexivity|]. simpl.
  destruct (keeps f_Location city f); simpl; [|exact IH].
  destruct (keeps f_Food_Type food_type f); simpl; [|exact IH].
  destruct (keeps f_Meal_Type meal_type f); simpl; now rewrite IH.
Qed.

(** C4.  The filters of the Listing Browser, with ["All"] for no filter
    on a dimension, combine conjunctively and commute: applied in any
    order of the three dimensions they give the rows that the page
    shows, in the same order, and a row is among them exactly when it
    is in each of the three single-filter results. *)
Theorem filter_listings_commutes (city food_type meal_type : string)
    (df : list food_listing) (order : list dimension) :
  Permutation [By_City; By_Food_Type; By_Meal_Type] order ->
  filter_in_order order (choices city food_type meal_type) df =
    filter_listings city food_type meal_type df
  /\ (forall f,
        In f (filter_listings city food_type meal_type df) <->
        In f (apply_filter f_Location city df)
        /\ In f (apply_filter f_Food_Type food_type df)
        /\ In f (apply_filter f_Meal_Type meal_type df)).
Proof.
  intros Hperm. split.
  - rewrite <- (filter_in_order_perm (choices city food_type meal_type) Hperm).
    reflexivity.
  - intros f. rewrite filter_listings_conj, !apply_filter_keeps.
    rewrite !filter_In, !andb_true_iff. tauto.
Qed.

Lemma filter_listings_commutes_witness :
  Permutation [By_City; By_Food_Type; By_Meal_Type]
              [By_Meal_Type; By_City; By_Food_Type]
  /\ filter_in_order [By_Meal_Type; By_City; By_Food_Type]
       (choices "Pune" "Vegan" "All") (food_listings Sample.the_store) =
     filter_listings "Pune" "Vegan" "All" (food_listings Sample.the_store).
Proof.
  assert (Hp : Permutation [By_City; By_Food_Type; By_Meal_Type]
                           [By_Meal_Type; By_City; By_Food_Type]).
  { apply Permutation_sym.
    apply (Permutation_cons_app [By_City; By_Food_Type] [] By_Meal_Type).
    apply Permutation_refl. }
  split; [exact Hp|].
  exact (proj1 (@filter_listings_commutes "Pune" "Vegan" "All"
                  (food_listings Sample.the_store) _ Hp)).
Defined.

(* ================================================================== *)
(** ** Claims Browser *)
(* ================================================================== *)

Lemma flat_map_map_out (A B C : Type) (g : A -> list B) (f : B -> C)
    (l : list A) :
  map f (flat_map g l) = flat_map (fun a => map f (g a)) l.
Proof.
  induction l as [|a l IH]; [reflexivity|].
  simpl. now rewrite map_app, IH.
Qed.

Lemma flat_map_nested (A B C : Type) (g : A -> list B) (k : B -> list C)
    (l : list A) :
  flat_map k (flat_map g l) = flat_map (fun a => flat_map k (g a)) l.
Proof.
  induction l as [|a l IH]; [reflexivity|].
  simpl. now rewrite flat_map_app, IH.
Qed.

Lemma flat_map_of_map (A B C : Type) (g : A -> B) (k : B -> list C)
    (l : list A) :
  flat_map k (map g l) = flat_map (fun a => k (g a)) l.
Proof.
  induction l as [|a l IH]; [reflexivity|]. simpl. now rewrite IH.
Qed.

(** The rows of the Claims Browser, claim by claim. *)
Lemma claims_rows_by_claim (db : database) :
  map Sql.claim_row (Sql.claims_listings_receivers db) =
  flat_map (claim_rows db) (claims db).
Proof.
  unfold Sql.claims_listings_receivers, Sql.claims_listings, Sql.join,
    claim_rows.
  rewrite flat_map_map_out, flat_map_nested.
  apply flat_map_ext. intros c.
  rewrite flat_map_of_map.
  apply flat_map_ext. intros f. cbn [fst snd].
  now rewrite map_map.
Qed.

Lemma claim_rows_in (db : database) (c : claim) (row : list value) :
  In row (claim_rows db c) <->
  exists f r,
    In f (food_listings db) /\ In r (receivers db)
    /\ c_Food_ID c = f_Food_ID f /\ c_Receiver_ID c = r_Receiver_ID r
    /\ row = [VInt (c_Claim_ID c); VText (f_Food_Name f); VText (r_Name r);
              VText (c_Status c); VText (c_Timestamp c)].
Proof.
  unfold claim_rows. rewrite in_flat_map. split.
  - intros (f & Hf & Hrow). apply filter_In in Hf as [Hf Hfe].
    apply in_map_iff in Hrow as (r & <- & Hr).
    apply filter_In in Hr as [Hr Hre].
    apply Z.eqb_eq in Hfe, Hre. exists f, r. now repeat split.
  - intros (f & r & Hf & Hr & Hfe & Hre & ->).
    exists f. split.
    + apply filter_In. split; [exact Hf | now apply Z.eqb_eq].
    + apply in_map_iff. exists r. split; [reflexivity|].
      apply filter_In. split; [exact Hr | now apply Z.eqb_eq].
Qed.

Lemma claim_rows_dangling (db : database) (c : claim) :
  dangling db c -> claim_rows db c = [].
Proof.
  intros Hd. destruct (claim_rows db c) as [|row l] eqn:E; [reflexivity|].
  assert (Hin : In row (claim_rows db c)) by (rewrite E; now left).
  apply claim_rows_in in Hin as (f & r & Hf & Hr & Hfe & Hre & _).
  exfalso.
  destruct Hd as [Hd|Hd]; [now apply (Hd f Hf) | now apply (Hd r Hr)].
Qed.

(** C5.  In a run in which the driver does not fail, the Claims Browser
    shows one table of the columns claim id, food name, receiver name,
    status and timestamp, whose rows are the inner join of the claims
    with their listing and their receiver: a row is shown exactly when
    it is the projection of a claim, a listing and a receiver of the
    store with matching references.  The rows come claim by claim, and
    a claim whose listing or receiver is not in the store contributes no
    row; the page does not raise for it. *)
Theorem claims_management_inner_join (w : world) :
  fresh_handles w -> healthy w ->
  let db := store w in
  let claims_df := eval_query SELECT_claims (sql_now w) db in
  fst (claims_management w) = Ok tt
  /\ screen (snd (claims_management w)) = screen w ++ [Dataframe claims_df]
  /\ columns claims_df =
       ["Claim_ID"; "Food_Name"; "Receiver_Name"; "Status"; "Timestamp"]
  /\ (forall row,
        In row (rows claims_df) <->
        exists c f r,
          In c (claims db) /\ In f (food_listings db)
          /\ In r (receivers db)
          /\ c_Food_ID c = f_Food_ID f
          /\ c_Receiver_ID c = r_Receiver_ID r
          /\ row = [VInt (c_Claim_ID c); VText (f_Food_Name f);
                    VText (r_Name r); VText (c_Status c);
                    VText (c_Timestamp c)])
  /\ rows claims_df = flat_map (claim_rows db) (claims db)
  /\ (forall c, dangling db c -> claim_rows db c = []).
Proof.
  intros Hf Hh db claims_df.
  assert (Hrows : rows claims_df = flat_map (claim_rows db) (claims db)).
  { apply claims_rows_by_claim. }
  unfold claims_management, bind, St.dataframe, draw.
  rewrite fetch_data_run by exact Hf. rewrite !Hh.
  cbn [fst snd]. unfold after_call. step_world.
  repeat split.
  - rewrite Hrows. intros Hin.
    apply in_flat_map in Hin as (c & Hc & Hrow).
    apply claim_rows_in in Hrow as (f & r & H). exists c, f, r. tauto.
  - rewrite Hrows. intros (c & f & r & Hc & H).
    apply in_flat_map. exists c. split; [exact Hc|].
    apply claim_rows_in. exists f, r. tauto.
  - exact Hrows.
  - apply claim_rows_dangling.
Qed.

Lemma claims_management_inner_join_witness :
  fresh_handles Sample.sound_world
  /\ healthy Sample.sound_world
  /\ fst (claims_management Sample.sound_world) = Ok tt
  /\ screen (snd (claims_management Sample.sound_world)) =
       [Dataframe
          (mkFrame
             ["Claim_ID"; "Food_Name"; "Receiver_Name"; "Status"; "Timestamp"]
             [[VInt 1; VText "Bread"; VText "Rita"; VText "Completed";
               VText "2025-03-01 10:00:00"];
              [VInt 4; VText "Soup"; VText "Sam"; VText "Completed";
               VText "2025-03-04 13:00:00"]])].
Proof.
  split; [constructor|]. split; [intros s; reflexivity|].
  pose proof (@claims_management_inner_join Sample.sound_world
                (Forall_nil _) (fun s => eq_refl)) as H.
  destruct H as (Hok & Hscreen & _).
  split; [exact Hok | exact Hscreen].
Defined.

(* ================================================================== *)
(** ** Listing Creator *)
(* ================================================================== *)

Lemma next_Food_ID_above (l : list food_listing) (f : food_listing) :
  In f l -> f_Food_ID f < next_Food_ID l.
Proof.
  unfold next_Food_ID.
  induction l as [|g l IH]; cbn [map fold_right In]; [easy|].
  intros [->|Hin]; [lia|]. specialize (IH Hin). lia.
Qed.

(** C7.  A submission of the Listing Creator form that meets the
    constraints of the form (quantity at least 1, expiry date not before
    today), in a run in which the driver does not fail, issues exactly
    one statement, the INSERT with the eight entered values as its
    parameters; the table of listings gains exactly one row, after the
    rows it had, whose eight columns hold the entered values (the date as
    its ISO text) and whose identity is assigned by the store and differs
    from every identity in use; the other tables are unchanged, the
    connection is released, and the confirmation is shown. *)
Theorem add_new_food_listing_inserts (entered : form) (w : world) :
  fresh_handles w -> healthy w ->
  form_constraints (today w) entered ->
  let h := next_handle w in
  let new := listing_of_form (next_Food_ID (food_listings (store w)))
               entered in
  let w' := snd (add_new_food_listing entered true w) in
  fst (add_new_food_listing entered true w) = Ok tt
  /\ log w' =
       log w ++ [Opened h; CursorMade h;
                 Executed h INSERT_INTO_food_listings (form_params entered);
                 Committed h; Closed h]
  /\ List.length (filter is_execution
                    (skipn (List.length (log w)) (log w'))) = 1%nat
  /\ food_listings (store w') = food_listings (store w) ++ [new]
  /\ providers (store w') = providers (store w)
  /\ receivers (store w') = receivers (store w)
  /\ claims (store w') = claims (store w)
  /\ (forall f, In f (food_listings (store w)) ->
                f_Food_ID f <> f_Food_ID new)
  /\ 1 <= f_Quantity new
  /\ (exists d, f_Expiry_Date new = isoformat d /\ date_le (today w) d)
  /\ open_conns w' = open_conns w
  /\ screen w' =
       screen w ++ form_widgets (today w)
       ++ [Success "Food listing added successfully!"].
Proof.
  intros Hf Hh [Hq He] h new w'.
  assert (Hrun : add_new_food_listing entered true w =
            (Ok tt,
             drawn
               (after_call (drawn w (form_widgets (today w)))
                  (mkDatabase (providers (store w)) (receivers (store w))
                     (food_listings (store w) ++ [new]) (claims (store w)))
                  [Opened h; CursorMade h;
                   Executed h INSERT_INTO_food_listings (form_params entered);
                   Committed h; Closed h])
               [Success "Food listing added successfully!"])).
  { unfold add_new_food_listing.
    rewrite (bind_ok _ (text_input_run _ _ _)).
    rewrite (bind_ok _ (number_input_run _ _ _ _)).
    rewrite (bind_ok _ (get_run today _)).
    rewrite (bind_ok _ (date_input_run _ _ _ _)).
    rewrite (bind_ok _ (number_input_run _ _ _ _)).
    rewrite (bind_ok _ (text_input_run _ _ _)).
    rewrite (bind_ok _ (text_input_run _ _ _)).
    rewrite (bind_ok _ (selectbox_run _ _ _ _)).
    rewrite (bind_ok _ (selectbox_run _ _ _ _)).
    rewrite (bind_ok _ (form_submit_button_run _ _ _)).
    rewrite !drawn_drawn. cbn [app].
    change (today (drawn w ?x)) with (today w).
    fold (form_widgets (today w)).
    assert (Hf1 : fresh_handles (drawn w (form_widgets (today w))))
      by exact Hf.
    assert (Hh1 : healthy (drawn w (form_widgets (today w)))) by exact Hh.
    rewrite (bind_ok _
               (execute_query_ok INSERT_INTO_food_listings
                  (Some (form_params entered)) Hf1 Hh1 eq_refl)).
    unfold St.success. now rewrite draw_run. }
  subst w'. rewrite Hrun. cbn [fst snd].
  unfold drawn, after_call. step_world.
  cbn [food_listings providers receivers claims].
  repeat split.
  - rewrite skipn_app, skipn_all, Nat.sub_diag. reflexivity.
  - intros f Hin E. apply next_Food_ID_above in Hin.
    subst new. cbn [listing_of_form f_Food_ID] in E. lia.
  - exact Hq.
  - exists (expiry entered). split; [reflexivity | exact He].
  - now rewrite <- app_assoc.
Qed.

Lemma add_new_food_listing_inserts_witness :
  fresh_handles Sample.sound_world
  /\ healthy Sample.sound_world
  /\ form_constraints (today Sample.sound_world) Sample.the_form
  /\ food_listings
       (store (snd (add_new_food_listing Sample.the_form true
                      Sample.sound_world))) =
     food_listings Sample.the_store
     ++ [mkListing 5 "Bread Loaves" 10 "2025-03-18" 1 "Bakery"
           "Springfield" "Vegetarian" "Breakfast"].
Proof.
  assert (Hc : form_constraints (today Sample.sound_world) Sample.the_form).
  { split; [discriminate | reflexivity]. }
  split; [constructor|]. split; [intros s; reflexivity|].
  split; [exact Hc|].
  pose proof (@add_new_food_listing_inserts Sample.the_form
                Sample.sound_world (Forall_nil _) (fun s => eq_refl) Hc)
    as H.
  destruct H as (_ & _ & _ & H & _). exact H.
Defined.

(* ================================================================== *)
(** ** The order on strings, [unique] and [sorted] *)
(* ================================================================== *)

Module StrFacts.

Lemma ascii_compare_refl (a : ascii) : Ascii.compare a a = Eq.
Proof. unfold Ascii.compare. apply N.compare_refl. Qed.

Lemma compare_refl (s : string) : String.compare s s = Eq.
Proof.
  induction s as [|a s IH]; [reflexivity|].
  simpl. now rewrite ascii_compare_refl.
Qed.

Lemma lt_irrefl (s : string) : ~ Str.lt s s.
Proof. unfold Str.lt. now rewrite compare_refl. Qed.

Lemma lt_trans (a b c : string) : Str.lt a b -> Str.lt b c -> Str.lt a c.
Proof.
  unfold Str.lt. revert b c.
  induction a as [|x a IH]; intros [|y b] [|z c]; simpl; try easy.
  unfold Ascii.compare.
  destruct (N.compare_spec (N_of_ascii x) (N_of_ascii y)) as [Exy|Lxy|Gxy];
    try discriminate;
    destruct (N.compare_spec (N_of_ascii y) (N_of_ascii z))
      as [Eyz|Lyz|Gyz]; try discriminate; intros Hab Hbc.
  - rewrite Exy, Eyz, N.compare_refl. now apply (IH b c).
  - rewrite Exy. now apply N.compare_lt_iff in Lyz as ->.
  - rewrite <- Eyz. now apply N.compare_lt_iff in Lxy as ->.
  - assert (H : (N_of_ascii x < N_of_ascii z)%N) by lia.
    now apply N.compare_lt_iff in H as ->.
Qed.

Lemma le_lt_or_eq (a b : string) : Str.le a b -> Str.lt a b \/ a = b.
Proof.
  unfold Str.le, Str.lt, String.leb.
  destruct (String.compare a b) eqn:E; try discriminate; intros _.
  - right. now apply String.compare_eq_iff.
  - now left.
Qed.

Lemma not_le_le (a b : string) : String.leb a b = false -> Str.le b a.
Proof.
  intros H. destruct (String.leb_total a b) as [H'|H']; [congruence|].
  exact H'.
Qed.

Lemma mem_In (x : string) (l : list string) :
  Str.mem x l = true <-> In x l.
Proof.
  induction l as [|y l IH]; simpl; [easy|].
  rewrite orb_true_iff, IH, String.eqb_eq. intuition congruence.
Qed.

Lemma unique_from_In (seen l : list string) (x : string) :
  In x (Str.unique_from seen l) <-> In x l /\ ~ In x seen.
Proof.
  revert seen. induction l as [|y l IH]; intros seen; simpl; [tauto|].
  destruct (Str.mem y seen) eqn:E.
  - apply mem_In in E. rewrite IH. intuition congruence.
  - assert (Hy : ~ In y seen).
    { intros H. apply mem_In in H. congruence. }
    simpl. rewrite IH. simpl.
    destruct (string_dec y x) as [->|Hne]; intuition congruence.
Qed.

Lemma unique_from_NoDup (seen l : list string) :
  NoDup (Str.unique_from seen l).
Proof.
  revert seen. induction l as [|y l IH]; intros seen; simpl.
  - constructor.
  - destruct (Str.mem y seen); [apply IH|].
    constructor; [|apply IH].
    rewrite unique_from_In. simpl. tauto.
Qed.

Lemma unique_In (l : list string) (x : string) :
  In x (Str.unique l) <-> In x l.
Proof. unfold Str.unique. rewrite unique_from_In. simpl. tauto. Qed.

Lemma unique_NoDup (l : list string) : NoDup (Str.unique l).
Proof. apply unique_from_NoDup. Qed.

Lemma insert_perm (x : string) (l : list string) :
  Permutation (x :: l) (Str.insert x l).
Proof.
  induction l as [|y l IH]; simpl; [apply Permutation_refl|].
  destruct (String.leb x y); [apply Permutation_refl|].
  eapply perm_trans; [apply perm_swap|]. now apply perm_skip.
Qed.

Lemma sorted_perm (l : list string) : Permutation l (Str.sorted l).
Proof.
  induction l as [|x l IH]; simpl; [constructor|].
  eapply perm_trans; [apply perm_skip, IH | apply insert_perm].
Qed.

Lemma sorted_In (l : list string) (x : string) :
  In x (Str.sorted l) <-> In x l.
Proof.
  split; apply Permutation_in;
    [apply Permutation_sym|]; apply sorted_perm.
Qed.

Lemma insert_locally (x : string) (l : list string) :
  Sorted Str.le l -> Sorted Str.le (Str.insert x l).
Proof.
  induction 1 as [|y l Hs IH Hhd]; simpl.
  - repeat constructor.
  - destruct (String.leb x y) eqn:E.
    + constructor; [now constructor|]. now constructor.
    + constructor; [exact IH|].
      apply not_le_le in E.
      destruct Hhd as [|z l Hyz]; simpl.
      * now constructor.
      * destruct (String.leb x z); now constructor.
Qed.

Lemma sorted_locally (l : list string) : Sorted Str.le (Str.sorted l).
Proof.
  induction l as [|x l IH]; simpl; [constructor|].
  now apply insert_locally.
Qed.

(** Ascending without repetition is strictly ascending. *)
Lemma strictly (l : list string) :
  Sorted Str.le l -> NoDup l -> StronglySorted Str.lt l.
Proof.
  intros Hs Hn. apply Sorted_StronglySorted.
  - intros a b c. apply lt_trans.
  - induction Hs as [|x l Hs IH Hhd]; [constructor|].
    inversion Hn as [|? ? Hx Hn']; subst.
    constructor; [now apply IH|].
    destruct Hhd as [|y l Hxy]; constructor.
    destruct (le_lt_or_eq Hxy) as [Hlt| ->]; [exact Hlt|].
    exfalso. apply Hx. now left.
Qed.

(** A strictly ascending list is determined by its elements. *)
Lemma strictly_unique (l1 l2 : list string) :
  StronglySorted Str.lt l1 -> StronglySorted Str.lt l2 ->
  (forall x, In x l1 <-> In x l2) -> l1 = l2.
Proof.
  intros H1. revert l2.
  induction H1 as [|x l1 H1 IH Hx]; intros l2 H2 Hsame.
  - destruct l2 as [|y l2]; [reflexivity|].
    exfalso. apply (Hsame y). now left.
  - destruct H2 as [|y l2 H2 Hy].
    { exfalso. apply (Hsame x). now left. }
    rewrite Forall_forall in Hx, Hy.
    assert (Exy : x = y).
    { destruct (proj1 (Hsame x) (or_introl eq_refl)) as [E|Hin];
        [now symmetry|].
      destruct (proj2 (Hsame y) (or_introl eq_refl)) as [E|Hin'];
        [exact E|].
      exfalso. apply (@lt_irrefl x).
      apply lt_trans with y; [now apply Hx | now apply Hy]. }
    subst y. f_equal. apply IH; [exact H2|].
    intros z. split; intros Hz.
    + destruct (proj1 (Hsame z) (or_intror Hz)) as [E|Hin]; [|exact Hin].
      subst z. exfalso. apply (@lt_irrefl x). now apply Hx.
    + destruct (proj2 (Hsame z) (or_intror Hz)) as [E|Hin]; [|exact Hin].
      subst z. exfalso. apply (@lt_irrefl x). now apply Hy.
Qed.

Lemma sorted_unique_strictly (l : list string) :
  StronglySorted Str.lt (Str.sorted (Str.unique l))
  /\ NoDup (Str.sorted (Str.unique l)).
Proof.
  assert (Hn : NoDup (Str.sorted (Str.unique l))).
  { eapply Permutation_NoDup; [apply sorted_perm | apply unique_NoDup]. }
  split; [|exact Hn].
  apply strictly; [apply sorted_locally | exact Hn].
Qed.

End StrFacts.

(* ================================================================== *)
(** ** Listing Browser: the selectors *)
(* ================================================================== *)

Lemma filter_options_In (column : food_listing -> string)
    (df : list food_listing) (x : string) :
  In x (filter_options column df) <->
  x = "All" \/ exists f, In f df /\ column f = x.
Proof.
  unfold filter_options. simpl.
  rewrite StrFacts.sorted_In, StrFacts.unique_In, in_map_iff.
  split; (intros [H|(f & H1 & H2)];
          [left; now symmetry | right; exists f; now split]).
Qed.

(** The Listing Browser when the driver does not fail. *)
Lemma view_food_listings_run (city food_type meal_type : string)
    (w : world) :
  fresh_handles w -> healthy w ->
  let df := food_listings (store w) in
  fst (view_food_listings city food_type meal_type w) = Ok tt
  /\ store (snd (view_food_listings city food_type meal_type w)) = store w
  /\ screen (snd (view_food_listings city food_type meal_type w)) =
       screen w ++
       [Selectbox "City" (filter_options f_Location df);
        Selectbox "Food Type" (filter_options f_Food_Type df);
        Selectbox "Meal Type" (filter_options f_Meal_Type df);
        Dataframe
          (Pandas.listings_frame
             (filter_listings city food_type meal_type df))].
Proof.
  intros Hf Hh df.
  unfold view_food_listings.
  rewrite (bind_ok _ (fetch_data_ok SELECT_STAR_food_listings Hf Hh)).
  cbn [eval_query]. fold df.
  rewrite (bind_ok _ (selectbox_run _ _ _ _)).
  rewrite (bind_ok _ (selectbox_run _ _ _ _)).
  rewrite (bind_ok _ (selectbox_run _ _ _ _)).
  unfold St.dataframe. rewrite draw_run, !drawn_drawn. cbn [app fst snd].
  repeat split.
Qed.

(** C8.  In a run in which the driver does not fail, the Listing Browser
    draws its three selectors from the listing set as fetched, before
    any filter is applied and whatever is selected in the three
    controls: each is populated from its own column (Location,
    Food_Type, Meal_Type) of that set, and its options are exactly
    ["All"] and the values that occur in that column. *)
Theorem filter_selectors_populated (city food_type meal_type : string)
    (w : world) :
  fresh_handles w -> healthy w ->
  let df := food_listings (store w) in
  (exists shown,
     screen (snd (view_food_listings city food_type meal_type w)) =
       screen w ++
       [Selectbox "City" (filter_options f_Location df);
        Selectbox "Food Type" (filter_options f_Food_Type df);
        Selectbox "Meal Type" (filter_options f_Meal_Type df);
        Dataframe shown])
  /\ (forall column x,
        In x (filter_options column df) <->
        x = "All" \/ exists f, In f df /\ column f = x).
Proof.
  intros Hf Hh df. split.
  - destruct (view_food_listings_run city food_type meal_type Hf Hh)
      as (_ & _ & Hs).
    eexists. exact Hs.
  - intros column x. apply filter_options_In.
Qed.

Lemma filter_selectors_populated_witness :
  fresh_handles Sample.sound_world
  /\ healthy Sample.sound_world
  /\ exists shown,
       screen (snd (view_food_listings "Pune" "All" "Dinner"
                      Sample.sound_world)) =
       [Selectbox "City" ["All"; "Delhi"; "Pune"];
        Selectbox "Food Type" ["All"; "Vegan"; "Vegetarian"];
        Selectbox "Meal Type" ["All"; "Breakfast"; "Dinner"; "Lunch"];
        Dataframe shown].
Proof.
  split; [constructor|]. split; [intros s; reflexivity|].
  exact (proj1 (@filter_selectors_populated "Pune" "All" "Dinner"
                  Sample.sound_world (Forall_nil _) (fun s => eq_refl))).
Defined.

(** C10.  The option list of a filter selector is ["All"] followed by
    the values of the column in strictly ascending order, hence without
    repetition, and it is determined by the set of values of the column:
    listing sets with the same values in the column, and so two renders
    over the same listing set, give the same option list. *)
Theorem filter_options_ordered (column : food_listing -> string)
    (df : list food_listing) :
  exists values,
    filter_options column df = "All" :: values
    /\ StronglySorted Str.lt values
    /\ NoDup values
    /\ (forall x, In x values <-> In x (map column df))
    /\ (forall df',
          (forall x, In x (map column df') <-> In x (map column df)) ->
          filter_options column df' = filter_options column df).
Proof.
  exists (Str.sorted (Str.unique (map column df))).
  destruct (StrFacts.sorted_unique_strictly (map column df)) as [Hs Hn].
  split; [reflexivity|]. split; [exact Hs|]. split; [exact Hn|]. split.
  - intros x. now rewrite StrFacts.sorted_In, StrFacts.unique_In.
  - intros df' Hsame. unfold filter_options. f_equal.
    apply StrFacts.strictly_unique.
    + apply StrFacts.sorted_unique_strictly.
    + exact Hs.
    + intros x.
      rewrite !StrFacts.sorted_In, !StrFacts.unique_In. apply Hsame.
Qed.

Example filter_options_sample :
  filter_options f_Meal_Type (food_listings Sample.the_store)
  = ["All"; "Breakfast"; "Dinner"; "Lunch"].
Proof. reflexivity. Qed.

(* ================================================================== *)
(** ** ISO dates as text *)
(* ================================================================== *)

Module IsoFacts.

Local Open Scope N_scope.
Local Open Scope string_scope.

Ltac digits := zify; Z.to_euclidean_division_equations; lia.

Lemma digit_code (n : N) : N_of_ascii (digit n) = 48 + n mod 10.
Proof.
  unfold digit. apply N_ascii_embedding.
  assert (n mod 10 < 10) by (apply N.mod_lt; discriminate). lia.
Qed.

Lemma digit_compare (a b : N) :
  Ascii.compare (digit a) (digit b) = N.compare (a mod 10) (b mod 10).
Proof.
  unfold Ascii.compare. rewrite !digit_code.
  destruct (N.compare_spec (a mod 10) (b mod 10)) as [E|L|G].
  - rewrite E. apply N.compare_refl.
  - apply N.compare_lt_iff. lia.
  - apply N.compare_gt_iff. lia.
Qed.

(** Comparing two texts that begin with a digit. *)
Lemma digit_head (a b : N) (s t : string) :
  String.compare (String (digit a) s) (String (digit b) t) =
  match N.compare (a mod 10) (b mod 10) with
  | Eq => String.compare s t
  | Lt => Lt
  | Gt => Gt
  end.
Proof.
  simpl. rewrite digit_compare.
  now destruct (N.compare (a mod 10) (b mod 10)).
Qed.

Lemma same_head (c : ascii) (s t : string) :
  String.compare (String c s) (String c t) = String.compare s t.
Proof. simpl. now rewrite StrFacts.ascii_compare_refl. Qed.

(** Comparing quotient first and remainder next is comparing the
    numbers. *)
Lemma lexicographic (k qa ra qb rb : N) (rest : comparison) :
  ra < k -> rb < k ->
  match N.compare qa qb with
  | Eq => match N.compare ra rb with
          | Eq => rest
          | Lt => Lt
          | Gt => Gt
          end
  | Lt => Lt
  | Gt => Gt
  end =
  match N.compare (k * qa + ra) (k * qb + rb) with
  | Eq => rest
  | Lt => Lt
  | Gt => Gt
  end.
Proof.
  intros Ha Hb.
  destruct (N.compare_spec qa qb) as [E|L|G].
  - subst qb.
    destruct (N.compare_spec ra rb) as [E|L|G].
    + subst rb. now rewrite N.compare_refl.
    + assert (H : k * qa + ra < k * qa + rb) by lia.
      now apply N.compare_lt_iff in H as ->.
    + assert (H : k * qa + rb < k * qa + ra) by lia.
      now apply N.compare_gt_iff in H as ->.
  - assert (H : k * qa + ra < k * qb + rb) by nia.
    now apply N.compare_lt_iff in H as ->.
  - assert (H : k * qb + rb < k * qa + ra) by nia.
    now apply N.compare_gt_iff in H as ->.
Qed.

(** A field of two digits orders as its number. *)
Lemma pad2_head (a b : N) (s t : string) :
  a < 100 -> b < 100 ->
  String.compare (pad2 a ++ s) (pad2 b ++ t) =
  match N.compare a b with
  | Eq => String.compare s t
  | Lt => Lt
  | Gt => Gt
  end.
Proof.
  intros Ha Hb. unfold pad2. cbn [append]. rewrite !digit_head.
  rewrite (N.mod_small (a / 10) 10), (N.mod_small (b / 10) 10) by digits.
  rewrite (lexicographic (k:=10)) by digits.
  now rewrite <- !N.div_mod by discriminate.
Qed.

Lemma pad4_split (a : N) (s : string) :
  pad4 a ++ s = pad2 (a / 100) ++ (pad2 (a mod 100) ++ s).
Proof.
  unfold pad4, pad2, digit. cbn [append].
  replace ((a / 100 / 10) mod 10) with ((a / 1000) mod 10) by digits.
  replace ((a mod 100 / 10) mod 10) with ((a / 10) mod 10) by digits.
  replace ((a mod 100) mod 10) with (a mod 10) by digits.
  reflexivity.
Qed.

(** A field of four digits orders as its number. *)
Lemma pad4_head (a b : N) (s t : string) :
  a < 10000 -> b < 10000 ->
  String.compare (pad4 a ++ s) (pad4 b ++ t) =
  match N.compare a b with
  | Eq => String.compare s t
  | Lt => Lt
  | Gt => Gt
  end.
Proof.
  intros Ha Hb. rewrite !pad4_split.
  rewrite pad2_head by digits.
  rewrite pad2_head by digits.
  rewrite (lexicographic (k:=100)) by digits.
  now rewrite <- !N.div_mod by discriminate.
Qed.

(** The text order of ISO dates is the chronological order. *)
Lemma isoformat_ltb (d1 d2 : date) :
  valid_date d1 -> valid_date d2 ->
  String.ltb (isoformat d1) (isoformat d2) = date_ltb d1 d2.
Proof.
  intros (Hy1 & Hm1 & Hd1) (Hy2 & Hm2 & Hd2).
  unfold String.ltb, isoformat, date_ltb.
  change (pad2 (day d1)) with (pad2 (day d1) ++ "")%string.
  change (pad2 (day d2)) with (pad2 (day d2) ++ "")%string.
  rewrite pad4_head by lia. cbn [append].
  rewrite same_head, pad2_head by lia.
  rewrite same_head, pad2_head by lia. cbn [String.compare].
  destruct (N.compare_spec (year d1) (year d2)) as [Ey|Ly|Gy];
    destruct (N.compare_spec (month d1) (month d2)) as [Em|Lm|Gm];
    destruct (N.compare_spec (day d1) (day d2)) as [Ed|Ld|Gd];
    destruct (N.ltb_spec (year d1) (year d2));
    destruct (N.eqb_spec (year d1) (year d2));
    destruct (N.ltb_spec (month d1) (month d2));
    destruct (N.eqb_spec (month d1) (month d2));
    destruct (N.ltb_spec (day d1) (day d2));
    try reflexivity; exfalso; lia.
Qed.
End IsoFacts.

(* ================================================================== *)
(** ** Report 15: expired food items *)
(* ================================================================== *)

Lemma expired_iff (now d : date) (f : food_listing) :
  valid_date now -> valid_date d -> f_Expiry_Date f = isoformat d ->
  Sql.expired now f = date_ltb d now.
Proof.
  intros Hn Hd E. unfold Sql.expired. rewrite E.
  now apply IsoFacts.isoformat_ltb.
Qed.

(** C3.  On a store whose expiry dates are calendar dates, held as the
    ISO text that the program writes, report 15 evaluated on the date
    [now] returns, in table order, the name, expiry date and location of
    exactly the listings whose expiry date is strictly earlier than
    [now]: a listing of the store is selected if and only if its expiry
    date is before [now], so one that expires on [now] or later is never
    selected, and every row of the result comes from such a listing. *)
Theorem expired_report_exact (now : date) (db : database) :
  valid_date now -> iso_dated db ->
  let result_df := eval_query (SELECT_report R15) now db in
  columns result_df = ["Food_Name"; "Expiry_Date"; "Location"]
  /\ rows result_df = map Sql.expired_row (Sql.expired_listings now db)
  /\ (forall f d,
        In f (food_listings db) -> valid_date d ->
        f_Expiry_Date f = isoformat d ->
        (In f (Sql.expired_listings now db) <-> date_lt d now))
  /\ (forall f d,
        valid_date d -> f_Expiry_Date f = isoformat d -> date_le now d ->
        ~ In f (Sql.expired_listings now db))
  /\ (forall row,
        In row (rows result_df) <->
        exists f d,
          In f (food_listings db) /\ valid_date d
          /\ f_Expiry_Date f = isoformat d /\ date_lt d now
          /\ row = [VText (f_Food_Name f); VText (f_Expiry_Date f);
                    VText (f_Location f)]).
Proof.
  intros Hn Hiso result_df.
  split; [reflexivity|]. split; [reflexivity|].
  assert (Hsel : forall f d,
            valid_date d -> f_Expiry_Date f = isoformat d ->
            (In f (Sql.expired_listings now db) <->
             In f (food_listings db) /\ date_lt d now)).
  { intros f d Hd E. unfold Sql.expired_listings, date_lt.
    rewrite filter_In. now rewrite (expired_iff f Hn Hd E). }
  split; [|split].
  - intros f d Hin Hd E. rewrite (Hsel f d Hd E). tauto.
  - intros f d Hd E Hle Hin. apply (Hsel f d Hd E) in Hin as [_ Hlt].
    unfold date_le, date_leb, date_lt in *.
    rewrite Hlt in Hle. discriminate.
  - intros row. cbn [result_df eval_query rows report_rows].
    rewrite in_map_iff. split.
    + intros (f & <- & Hin).
      assert (Hf : In f (food_listings db)).
      { unfold Sql.expired_listings in Hin. now apply filter_In in Hin. }
      destruct (Hiso f Hf) as (d & Hd & E).
      exists f, d. apply (Hsel f d Hd E) in Hin as [_ Hlt].
      split; [exact Hf|]. split; [exact Hd|]. split; [exact E|].
      split; [exact Hlt | reflexivity].
    + intros (f & d & Hf & Hd & E & Hlt & ->).
      exists f. split; [reflexivity|]. now apply (Hsel f d Hd E).
Qed.

Lemma sample_store_iso_dated : iso_dated Sample.the_store.
Proof.
  intros f [<-|[<-|[<-|[]]]]; cbn [f_Expiry_Date].
  - exists (mkDate 2025 3 17). split; [|reflexivity].
    unfold valid_date; cbn [year month day]; lia.
  - exists (mkDate 2025 3 20). split; [|reflexivity].
    unfold valid_date; cbn [year month day]; lia.
  - exists (mkDate 2025 3 10). split; [|reflexivity].
    unfold valid_date; cbn [year month day]; lia.
Defined.

Lemma expired_report_exact_witness :
  valid_date Sample.the_day
  /\ iso_dated Sample.the_store
  /\ rows (eval_query (SELECT_report R15) Sample.the_day Sample.the_store) =
       [[VText "Soup"; VText "2025-03-10"; VText "Pune"]]
  /\ ~ In (mkListing 1 "Bread" 10 "2025-03-17" 1 "Bakery" "Pune"
             "Vegetarian" "Breakfast")
          (Sql.expired_listings Sample.the_day Sample.the_store).
Proof.
  assert (Hv : valid_date Sample.the_day).
  { unfold valid_date, Sample.the_day; cbn [year month day]; lia. }
  split; [exact Hv|]. split; [exact sample_store_iso_dated|].
  pose proof (@expired_report_exact Sample.the_day Sample.the_store Hv
                sample_store_iso_dated) as H.
  destruct H as (_ & Hrows & _ & Hnever & _).
  split; [exact Hrows|].
  apply (Hnever _ (mkDate 2025 3 17)); [exact Hv | reflexivity | reflexivity].
Defined.

(** C3, the input that separates the claim as it is written from the
    program: a store whose expiry dates are not ISO text.  On 20 March
    2025 the listing that expired on 17 March 2025, held as "3/17/2025",
    and the one that expired on 5 March 2025, held as "2025-3-5", are
    not returned, and the listing with no expiry date at all is. *)
Lemma expired_report_other_formats :
  date_lt (mkDate 2025 3 17) (mkDate 2025 3 20)
  /\ date_lt (mkDate 2025 3 5) (mkDate 2025 3 20)
  /\ rows (eval_query (SELECT_report R15) (mkDate 2025 3 20)
             Sample.mixed_store) =
       [[VText "Curd"; VText ""; VText "Pune"]]
  /\ ~ In (mkListing 1 "Bread" 10 "3/17/2025" 1 "Bakery" "Pune"
             "Vegetarian" "Breakfast")
          (Sql.expired_listings (mkDate 2025 3 20) Sample.mixed_store)
  /\ ~ In (mkListing 3 "Rice" 5 "2025-3-5" 2 "Shop" "Delhi" "Vegan" "Lunch")
          (Sql.expired_listings (mkDate 2025 3 20) Sample.mixed_store).
Proof.
  split; [reflexivity|]. split; [reflexivity|]. split; [reflexivity|].
  split; intros [H|[]]; discriminate H.
Qed.

(* ================================================================== *)
(** ** What every run keeps *)
(* ================================================================== *)

Lemma fresh_in_flight (w : world) (x : option database) (es : list event) :
  fresh_handles w -> fresh_handles (in_flight w x es).
Proof.
  unfold fresh_handles, in_flight. step_world. intros Hf.
  apply Forall_app. split.
  - revert Hf. apply Forall_impl. intros c Hc. lia.
  - constructor; [simpl; lia | constructor].
Qed.

Create HintDb pages.

Section Preservation.

Variable P : world -> Prop.

Hypothesis P_fresh : forall w, P w -> fresh_handles w.
Hypothesis P_drawn : forall w xs, P w -> P (drawn w xs).
Hypothesis P_in_flight : forall w x es, P w -> P (in_flight w x es).
Hypothesis P_after_read : forall w es, P w -> P (after_call w (store w) es).

Lemma preserves_ret (A : Type) (a : A) : preserves P (ret a).
Proof. intros w Hw. exact Hw. Qed.

Lemma preserves_raise (A : Type) (e : exn) : preserves P (@raise A e).
Proof. intros w Hw. exact Hw. Qed.

Lemma preserves_get (A : Type) (f : world -> A) : preserves P (get f).
Proof. intros w Hw. exact Hw. Qed.

Lemma preserves_bind (A B : Type) (m : App A) (k : A -> App B) :
  preserves P m -> (forall a, preserves P (k a)) -> preserves P (bind m k).
Proof.
  intros Hm Hk w Hw. unfold bind. specialize (Hm w Hw).
  destruct (m w) as [[a|e] w']; cbn [snd] in *; [now apply Hk | exact Hm].
Qed.

Lemma preserves_draw (x : widget) : preserves P (draw x).
Proof. intros w Hw. rewrite draw_run. now apply P_drawn. Qed.

Lemma preserves_fetch_data (A : Type) (q : query A) :
  preserves P (fetch_data q).
Proof.
  intros w Hw. rewrite fetch_data_run by now apply P_fresh.
  destruct (fails w Connect); [exact Hw|].
  destruct (fails w Read); [now apply P_in_flight | now apply P_after_read].
Qed.

#[local] Hint Resolve preserves_ret preserves_raise preserves_get preserves_draw
  preserves_fetch_data : pages.

Ltac preserve :=
  repeat lazymatch goal with
         | |- preserves _ (bind _ _) => apply preserves_bind; [|intros]
         end;
  auto with pages.

Lemma preserves_getitem (df : DataFrame) (name : string) :
  preserves P (Pandas.getitem df name).
Proof.
  unfold Pandas.getitem.
  destruct (Pandas.position name (columns df)); auto with pages.
Qed.

Lemma preserves_at0 (series : list value) : preserves P (Pandas.at0 series).
Proof. destruct series; cbn [Pandas.at0]; auto with pages. Qed.

Lemma preserves_columns0 (df : DataFrame) : preserves P (Pandas.columns0 df).
Proof.
  unfold Pandas.columns0. destruct (columns df); auto with pages.
Qed.

Lemma preserves_set_index (df : DataFrame) (name : string) :
  preserves P (Pandas.set_index df name).
Proof.
  unfold Pandas.set_index.
  destruct (Pandas.position name (columns df)); auto with pages.
Qed.

#[local] Hint Resolve preserves_getitem preserves_at0 preserves_columns0
  preserves_set_index : pages.

Lemma preserves_count_metric (t : table) : preserves P (count_metric t).
Proof. unfold count_metric. preserve. Qed.

Lemma preserves_dashboard : preserves P dashboard.
Proof.
  unfold dashboard, St.metric, St.bar_chart.
  pose proof preserves_count_metric. preserve.
Qed.

Lemma preserves_view_food_listings (city food_type meal_type : string) :
  preserves P (view_food_listings city food_type meal_type).
Proof. unfold view_food_listings, St.selectbox, St.dataframe. preserve. Qed.

Lemma preserves_claims_management : preserves P claims_management.
Proof. unfold claims_management, St.dataframe. preserve. Qed.

Lemma preserves_sql_analysis (r : report) : preserves P (sql_analysis r).
Proof.
  unfold sql_analysis, show_result, St.selectbox, St.dataframe,
    St.bar_chart.
  preserve. destruct (Nat.eqb (shape1 a0) 2); preserve.
Qed.

End Preservation.

(** X3.  The four read pages (Dashboard, Listing Browser, Claims
    Browser, Report Runner) leave the store as it was in every run,
    whatever the driver does and also when the run raises, and every
    open connection stays below the next handle. *)
Lemma read_pages_read_only (page : request) (w : world) :
  (forall entered pressed, page <> Add_New_Food_Listing entered pressed) ->
  fresh_handles w ->
  fresh_handles (snd (run_script page w))
  /\ store (snd (run_script page w)) = store w.
Proof.
  intros Hread Hf.
  set (P := fun w' => fresh_handles w' /\ store w' = store w).
  assert (H1 : forall w', P w' -> fresh_handles w') by (intros w' H; apply H).
  assert (H2 : forall w' xs, P w' -> P (drawn w' xs))
    by (intros w' xs H; exact H).
  assert (H3 : forall w' x es, P w' -> P (in_flight w' x es)).
  { intros w' x es [Ha Hb]. split; [now apply fresh_in_flight | exact Hb]. }
  assert (H4 : forall w' es, P w' -> P (after_call w' (store w') es)).
  { intros w' es [Ha Hb]. split; [now apply fresh_after_call | exact Hb]. }
  assert (Hw : P w) by (split; [exact Hf | reflexivity]).
  destruct page as [|c ft mt| |r|entered pressed]; cbn [run_script].
  - change (P (snd (dashboard w))).
    apply (@preserves_dashboard P); assumption.
  - change (P (snd (view_food_listings c ft mt w))).
    apply (@preserves_view_food_listings P); assumption.
  - change (P (snd (claims_management w))).
    apply (@preserves_claims_management P); assumption.
  - change (P (snd (sql_analysis r w))).
    apply (@preserves_sql_analysis P); assumption.
  - now destruct (Hread entered pressed).
Qed.

(* ================================================================== *)
(** ** The pages as whole runs *)
(* ================================================================== *)

(** The step of [show_result] that draws the chart of a result of two
    columns. *)
Lemma chart_of_two_columns (c0 c1 : string) (rws : list (list value))
    (w : world) :
  bind (Pandas.columns0 (mkFrame [c0; c1] rws))
    (fun c => bind (Pandas.set_index (mkFrame [c0; c1] rws) c)
                (fun chart => St.bar_chart chart)) w =
  (Ok tt, drawn w [BarChart (first_column_chart (mkFrame [c0; c1] rws))]).
Proof.
  unfold Pandas.columns0. cbn [columns].
  rewrite (bind_ok _ (eq_refl : ret c0 w = (Ok c0, w))).
  unfold Pandas.set_index. cbn [columns rows Pandas.position].
  rewrite String.eqb_refl, drop_first_column.
  unfold bind, ret, St.bar_chart. now rewrite draw_run.
Qed.

(** What [show_result] draws, as one step. *)
Lemma show_result_eq (result_df : DataFrame) (w : world) :
  show_result result_df w =
    (Ok tt,
     drawn w
       (Dataframe result_df ::
        (if Nat.eqb (shape1 result_df) 2
         then [BarChart (first_column_chart result_df)]
         else []))).
Proof.
  unfold show_result, St.dataframe.
  rewrite (bind_ok _ (draw_run _ _)).
  destruct (Nat.eqb_spec (shape1 result_df) 2) as [Hlen|Hlen].
  - destruct result_df as [[|c0 [|c1 [|c2 cols]]] rws];
      try discriminate Hlen.
    rewrite chart_of_two_columns. now rewrite drawn_drawn.
  - unfold ret. reflexivity.
Qed.

Lemma sql_analysis_eq (r : report) (w : world) :
  fresh_handles w -> healthy w ->
  let result_df := eval_query (queries r) (sql_now w) (store w) in
  sql_analysis r w =
    (Ok tt,
     drawn
       (after_read
          (drawn w [Selectbox "Select a Query"
                      (map report_label all_reports)]))
       (Dataframe result_df ::
        (if Nat.eqb (shape1 result_df) 2
         then [BarChart (first_column_chart result_df)]
         else []))).
Proof.
  intros Hf Hh result_df.
  rewrite (sql_analysis_run r Hf Hh). apply show_result_eq.
Qed.

Lemma view_food_listings_eq (city food_type meal_type : string)
    (w : world) :
  fresh_handles w -> healthy w ->
  let df := food_listings (store w) in
  view_food_listings city food_type meal_type w =
    (Ok tt,
     drawn (after_read w)
       [Selectbox "City" (filter_options f_Location df);
        Selectbox "Food Type" (filter_options f_Food_Type df);
        Selectbox "Meal Type" (filter_options f_Meal_Type df);
        Dataframe
          (Pandas.listings_frame
             (filter_listings city food_type meal_type df))]).
Proof.
  intros Hf Hh df. unfold view_food_listings.
  rewrite (bind_ok _ (fetch_data_ok SELECT_STAR_food_listings Hf Hh)).
  cbn [eval_query]. fold df. fold (after_read w).
  rewrite (bind_ok _ (selectbox_run _ _ _ _)).
  rewrite (bind_ok _ (selectbox_run _ _ _ _)).
  rewrite (bind_ok _ (selectbox_run _ _ _ _)).
  unfold St.dataframe. now rewrite draw_run, !drawn_drawn.
Qed.

Lemma claims_management_eq (w : world) :
  fresh_handles w -> healthy w ->
  claims_management w =
    (Ok tt,
     drawn (after_read w)
       [Dataframe (eval_query SELECT_claims (sql_now w) (store w))]).
Proof.
  intros Hf Hh. unfold claims_management.
  rewrite (bind_ok _ (fetch_data_ok SELECT_claims Hf Hh)).
  unfold St.dataframe. now rewrite draw_run.
Qed.

(** The Listing Creator up to the press of the button. *)
Lemma add_new_food_listing_form (entered : form) (pressed : bool)
    (w : world) :
  add_new_food_listing entered pressed w =
    (if pressed
     then bind (execute_query INSERT_INTO_food_listings
                  (Some (form_params entered)))
            (fun _ => St.success "Food listing added successfully!")
     else ret tt)
      (drawn w (form_widgets (today w))).
Proof.
  unfold add_new_food_listing.
  rewrite (bind_ok _ (text_input_run _ _ _)).
  rewrite (bind_ok _ (number_input_run _ _ _ _)).
  rewrite (bind_ok _ (get_run today _)).
  rewrite (bind_ok _ (date_input_run _ _ _ _)).
  rewrite (bind_ok _ (number_input_run _ _ _ _)).
  rewrite (bind_ok _ (text_input_run _ _ _)).
  rewrite (bind_ok _ (text_input_run _ _ _)).
  rewrite (bind_ok _ (selectbox_run _ _ _ _)).
  rewrite (bind_ok _ (selectbox_run _ _ _ _)).
  rewrite (bind_ok _ (form_submit_button_run _ _ _)).
  rewrite !drawn_drawn. reflexivity.
Qed.

Lemma add_new_food_listing_eq (entered : form) (w : world) :
  fresh_handles w -> healthy w ->
  let h := next_handle w in
  add_new_food_listing entered true w =
    (Ok tt,
     drawn
       (after_call (drawn w (form_widgets (today w)))
          (with_listing (store w) entered)
          [Opened h; CursorMade h;
           Executed h INSERT_INTO_food_listings (form_params entered);
           Committed h; Closed h])
       [Success "Food listing added successfully!"]).
Proof.
  intros Hf Hh h. rewrite add_new_food_listing_form.
  assert (Hf1 : fresh_handles (drawn w (form_widgets (today w))))
    by exact Hf.
  assert (Hh1 : healthy (drawn w (form_widgets (today w)))) by exact Hh.
  rewrite (bind_ok _
             (execute_query_ok INSERT_INTO_food_listings
                (Some (form_params entered)) Hf1 Hh1 eq_refl)).
  unfold St.success. now rewrite draw_run.
Qed.

Lemma dashboard_eq (w : world) :
  fresh_handles w -> healthy w ->
  dashboard w =
    (Ok tt,
     drawn (after_read (after_metrics w))
       [BarChart
          (first_column_chart
             (eval_query SELECT_listings_by_city (sql_now w) (store w)))]).
Proof.
  intros Hf Hh.
  destruct (after_metric_facts "Total Providers" T_providers Hf Hh)
    as (Hf1 & Hh1 & _).
  destruct (after_metric_facts "Total Receivers" T_receivers Hf1 Hh1)
    as (Hf2 & Hh2 & _).
  destruct (after_metric_facts "Total Food Listings" T_food_listings Hf2 Hh2)
    as (Hf3 & Hh3 & _).
  unfold dashboard.
  rewrite (metric_step _ _ _ Hf Hh), (metric_step _ _ _ Hf1 Hh1),
    (metric_step _ _ _ Hf2 Hh2).
  fold (after_metrics w) in *.
  rewrite (bind_ok _ (fetch_data_ok SELECT_listings_by_city Hf3 Hh3)).
  fold (after_read (after_metrics w)).
  rewrite (bind_ok _ (city_chart _ _ _)).
  unfold St.bar_chart. rewrite draw_run. reflexivity.
Qed.

(** X4.  In a run in which the driver does not fail, every page returns
    normally, whatever the store holds and whatever is selected or
    entered; it opens the connections it needs one after the other (four
    for the Dashboard, one for the other pages, none for the Listing
    Creator while the button is not pressed) and leaves every one of them
    closed: the set of open connections is what it was before the run. *)
Theorem healthy_run_releases (page : request) (w : world) :
  fresh_handles w -> healthy w ->
  fst (run_script page w) = Ok tt
  /\ open_conns (snd (run_script page w)) = open_conns w
  /\ next_handle (snd (run_script page w)) =
       (next_handle w + connections_used page)%nat.
Proof.
  intros Hf Hh.
  destruct page as [|c ft mt| |r|entered [|]];
    cbn [run_script connections_used].
  - rewrite (dashboard_eq Hf Hh). cbn [fst snd].
    split; [reflexivity|]. split; [reflexivity|].
    cbv [drawn after_read after_metrics after_metric after_call
         next_handle].
    lia.
  - rewrite (view_food_listings_eq c ft mt Hf Hh). cbn [fst snd].
    split; [reflexivity|]. split; [reflexivity|].
    unfold drawn, after_read, after_call. step_world. lia.
  - rewrite (claims_management_eq Hf Hh). cbn [fst snd].
    split; [reflexivity|]. split; [reflexivity|].
    unfold drawn, after_read, after_call. step_world. lia.
  - rewrite (sql_analysis_eq r Hf Hh). cbn [fst snd].
    split; [reflexivity|]. split; [reflexivity|].
    unfold drawn, after_read, after_call. step_world. lia.
  - rewrite (add_new_food_listing_eq entered Hf Hh). cbn [fst snd].
    split; [reflexivity|]. split; [reflexivity|].
    unfold drawn, after_call. step_world. lia.
  - rewrite add_new_food_listing_form. cbn [fst snd ret].
    split; [reflexivity|]. split; [reflexivity|].
    unfold drawn. step_world. lia.
Qed.

Lemma healthy_run_releases_witness :
  fresh_handles Sample.sound_world
  /\ healthy Sample.sound_world
  /\ fst (run_script Dashboard Sample.sound_world) = Ok tt
  /\ open_conns (snd (run_script Dashboard Sample.sound_world)) = []
  /\ next_handle (snd (run_script Dashboard Sample.sound_world)) = 4%nat.
Proof.
  split; [constructor|]. split; [intros s; reflexivity|].
  exact (@healthy_run_releases Dashboard Sample.sound_world
           (Forall_nil _) (fun s => eq_refl)).
Defined.

(** A pressed submission, for each way the driver can behave. *)
Lemma submission_run (entered : form) (w : world) :
  fresh_handles w ->
  let h := next_handle w in
  let w1 := drawn w (form_widgets (today w)) in
  let p := form_params entered in
  bind (execute_query INSERT_INTO_food_listings (Some p))
    (fun _ => St.success "Food listing added successfully!") w1 =
    if fails w Connect then (Raise (OperationalError Connect), w1)
    else if fails w Cursor
    then (Raise (OperationalError Cursor), in_flight w1 None [Opened h])
    else if fails w Execute
    then (Raise (OperationalError Execute),
          in_flight w1 None [Opened h; CursorMade h])
    else if fails w Commit
    then (Raise (OperationalError Commit),
          in_flight w1 (Some (with_listing (store w) entered))
            [Opened h; CursorMade h;
             Executed h INSERT_INTO_food_listings p])
    else (Ok tt,
          drawn
            (after_call w1 (with_listing (store w) entered)
               [Opened h; CursorMade h;
                Executed h INSERT_INTO_food_listings p; Committed h;
                Closed h])
            [Success "Food listing added successfully!"]).
Proof.
  intros Hf h w1 p.
  assert (Hf1 : fresh_handles w1) by exact Hf.
  unfold bind.
  rewrite (execute_query_run INSERT_INTO_food_listings (Some p) Hf1).
  change (fails w1) with (fails w).
  change (run_statement INSERT_INTO_food_listings (bound_params (Some p))
            (store w1))
    with (Ok (with_listing (store w) entered)).
  cbv zeta. change (next_handle w1) with h.
  change (bound_params (Some p)) with p.
  destruct (fails w Connect); [reflexivity|].
  destruct (fails w Cursor); [reflexivity|].
  destruct (fails w Execute); [reflexivity|].
  destruct (fails w Commit); [reflexivity|].
  unfold St.success. now rewrite draw_run.
Qed.

(** X5.  The Listing Creator writes only through a submission that
    commits.  While the button is not pressed, and when a pressed
    submission fails at any driver step, the store is left as it was and
    no confirmation is drawn after the form; when the submission commits,
    the store has gained the row of the form and the confirmation is the
    last thing drawn.  The run raises exactly when a pressed submission
    does not commit. *)
Theorem listing_creator_outcomes (entered : form) (pressed : bool)
    (w : world) :
  fresh_handles w ->
  let r := add_new_food_listing entered pressed w in
  store (snd r) =
    (if commits pressed w then with_listing (store w) entered else store w)
  /\ screen (snd r) =
       screen w ++ form_widgets (today w)
       ++ (if commits pressed w
           then [Success "Food listing added successfully!"]
           else [])
  /\ (fst r = Ok tt <-> pressed = false \/ commits pressed w = true).
Proof.
  intros Hf r. subst r. rewrite add_new_food_listing_form.
  unfold commits. destruct pressed; cbn [andb].
  2:{ cbn [ret fst snd]. unfold drawn. step_world.
      rewrite app_nil_r. repeat split; auto. }
  rewrite (submission_run entered Hf). cbv zeta.
  destruct (fails w Connect); cbn [negb andb fst snd];
    [|destruct (fails w Cursor); cbn [negb andb fst snd];
      [|destruct (fails w Execute); cbn [negb andb fst snd];
        [|destruct (fails w Commit); cbn [negb andb fst snd]]]];
    unfold in_flight, after_call, drawn; step_world;
    rewrite ?app_nil_r, <- ?app_assoc;
    (split; [reflexivity|]); (split; [reflexivity|]);
    (split; [try discriminate; auto
            | try reflexivity; intros [H|H]; discriminate]).
Qed.

Lemma listing_creator_outcomes_witness :
  fresh_handles (Sample.failing_at Commit)
  /\ store (snd (add_new_food_listing Sample.the_form true
                   (Sample.failing_at Commit))) = Sample.the_store
  /\ ~ (fst (add_new_food_listing Sample.the_form true
               (Sample.failing_at Commit)) = Ok tt).
Proof.
  split; [constructor|].
  pose proof (@listing_creator_outcomes Sample.the_form true
                (Sample.failing_at Commit) (Forall_nil _)) as (Hs & _ & Hr).
  split; [exact Hs|].
  intros Hok. apply Hr in Hok. destruct Hok as [H|H]; discriminate H.
Defined.

(* ================================================================== *)
(** ** Grouped reports *)
(* ================================================================== *)

Module GroupFacts.

Lemma sum_app (A : Type) (f : A -> Z) (l1 l2 : list A) :
  Sql.sum f (l1 ++ l2) = Sql.sum f l1 + Sql.sum f l2.
Proof.
  unfold Sql.sum. induction l1 as [|a l1 IH]; cbn [app fold_right]; lia.
Qed.

Lemma sum_cons (A : Type) (f : A -> Z) (a : A) (l : list A) :
  Sql.sum f (a :: l) = f a + Sql.sum f l.
Proof. reflexivity. Qed.

Lemma sum_plus (A : Type) (f g : A -> Z) (l : list A) :
  Sql.sum (fun a => f a + g a) l = Sql.sum f l + Sql.sum g l.
Proof.
  unfold Sql.sum. induction l as [|a l IH]; cbn [fold_right]; lia.
Qed.

Lemma sum_map (A B : Type) (h : A -> B) (f : B -> Z) (l : list A) :
  Sql.sum f (map h l) = Sql.sum (fun a => f (h a)) l.
Proof.
  unfold Sql.sum. induction l as [|a l IH]; cbn [map fold_right]; lia.
Qed.

Lemma sum_ext (A : Type) (f g : A -> Z) (l : list A) :
  (forall a, In a l -> f a = g a) -> Sql.sum f l = Sql.sum g l.
Proof.
  unfold Sql.sum. induction l as [|a l IH]; intros H; cbn [fold_right].
  - reflexivity.
  - rewrite (H a (or_introl eq_refl)), IH; [reflexivity|].
    intros b Hb. apply H. now right.
Qed.

Lemma sum_zero (A : Type) (l : list A) : Sql.sum (fun _ => 0) l = 0.
Proof.
  unfold Sql.sum. induction l as [|a l IH]; cbn [fold_right]; lia.
Qed.

Lemma count_as_sum (A : Type) (g : list A) :
  Sql.count g = Sql.sum (fun _ => 1) g.
Proof.
  unfold Sql.count, Sql.sum.
  induction g as [|a g IH]; cbn [List.length fold_right]; lia.
Qed.

(** Among distinct keys, exactly one is the key of a given row. *)
Lemma sum_at_key (k0 : string) (x : Z) (ks : list string) :
  NoDup ks -> In k0 ks ->
  Sql.sum (fun k => if String.eqb k0 k then x else 0) ks = x.
Proof.
  induction 1 as [|k ks Hk Hn IH]; intros Hin.
  - destruct Hin.
  - rewrite sum_cons. destruct (String.eqb_spec k0 k) as [->|Hne].
    + rewrite (@sum_ext _ (fun k' => if String.eqb k k' then x else 0)
                 (fun _ => 0) ks).
      * rewrite sum_zero. lia.
      * intros k' Hk'. destruct (String.eqb_spec k k') as [->|]; tauto.
    + destruct Hin as [->|Hin]; [tauto|]. rewrite (IH Hin). lia.
Qed.

(** Summing group by group is summing over the table. *)
Lemma partition_sum (A : Type) (key : A -> string) (f : A -> Z)
    (ks : list string) (l : list A) :
  NoDup ks -> (forall a, In a l -> In (key a) ks) ->
  Sql.sum (fun k => Sql.sum f (filter (fun a => String.eqb (key a) k) l)) ks
  = Sql.sum f l.
Proof.
  intros Hn. induction l as [|a l IH]; intros Hin.
  - cbn [filter]. apply sum_zero.
  - rewrite (@sum_ext _ _
               (fun k => (if String.eqb (key a) k then f a else 0)
                         + Sql.sum f
                             (filter (fun b => String.eqb (key b) k) l))
               ks).
    + rewrite sum_plus, sum_at_key, IH.
      * reflexivity.
      * intros b Hb. apply Hin. now right.
      * exact Hn.
      * apply Hin. now left.
    + intros k _. cbn [filter].
      destruct (String.eqb (key a) k); [rewrite sum_cons|]; lia.
Qed.

Lemma grouped_as_map (A : Type) (key : A -> string) (agg : list A -> Z)
    (l : list A) :
  Sql.grouped key agg l =
  map (fun k => (k, agg (filter (fun a => String.eqb (key a) k) l)))
      (Str.sorted (Str.unique (map key l))).
Proof. unfold Sql.grouped, Sql.group_by. now rewrite map_map. Qed.

Lemma grouped_keys (A : Type) (key : A -> string) (agg : list A -> Z)
    (l : list A) :
  map fst (Sql.grouped key agg l) = Str.sorted (Str.unique (map key l)).
Proof.
  rewrite grouped_as_map, map_map. cbn [fst]. apply map_id.
Qed.

Lemma grouped_In (A : Type) (key : A -> string) (agg : list A -> Z)
    (l : list A) (k : string) (n : Z) :
  In (k, n) (Sql.grouped key agg l) <->
  In k (map key l)
  /\ n = agg (filter (fun a => String.eqb (key a) k) l).
Proof.
  rewrite grouped_as_map, in_map_iff. split.
  - intros (k' & E & Hk). injection E as -> <-.
    rewrite StrFacts.sorted_In, StrFacts.unique_In in Hk. now split.
  - intros [Hk ->]. exists k. split; [reflexivity|].
    now rewrite StrFacts.sorted_In, StrFacts.unique_In.
Qed.

Lemma grouped_total (A : Type) (key : A -> string) (f : A -> Z)
    (l : list A) :
  Sql.sum snd (Sql.grouped key (Sql.sum f) l) = Sql.sum f l.
Proof.
  rewrite grouped_as_map, sum_map. cbn [snd].
  apply partition_sum.
  - apply StrFacts.sorted_unique_strictly.
  - intros a Ha. rewrite StrFacts.sorted_In, StrFacts.unique_In.
    now apply in_map.
Qed.

Lemma grouped_count_total (A : Type) (key : A -> string) (l : list A) :
  Sql.sum snd (Sql.grouped key (@Sql.count A) l) = Z.of_nat (List.length l).
Proof.
  rewrite grouped_as_map, sum_map. cbn [snd].
  rewrite (@sum_ext _ _
             (fun k => Sql.sum (fun _ => 1)
                         (filter (fun a => String.eqb (key a) k) l))
             (Str.sorted (Str.unique (map key l)))).
  - rewrite partition_sum.
    + now rewrite <- count_as_sum.
    + apply StrFacts.sorted_unique_strictly.
    + intros a Ha. rewrite StrFacts.sorted_In, StrFacts.unique_In.
      now apply in_map.
  - intros k _. apply count_as_sum.
Qed.

End GroupFacts.

(** X2.  A report that counts by group ([SELECT key, COUNT( * ) ... GROUP
    BY key]: reports 1, 2, 8 and 11 and the chart of the Dashboard) has
    one row for each value that the key takes in the table and no other
    row, no key twice; the count of a row is the number of rows of the
    table with that key, so it is at least 1, and the counts add up to
    the number of rows of the table. *)
Theorem grouped_counts (A : Type) (key : A -> string) (l : list A) :
  NoDup (map fst (Sql.grouped key (@Sql.count A) l))
  /\ (forall k n,
        In (k, n) (Sql.grouped key (@Sql.count A) l) <->
        In k (map key l)
        /\ n = Z.of_nat
                 (List.length (filter (fun a => String.eqb (key a) k) l)))
  /\ (forall k n, In (k, n) (Sql.grouped key (@Sql.count A) l) -> 1 <= n)
  /\ Sql.sum snd (Sql.grouped key (@Sql.count A) l)
     = Z.of_nat (List.length l).
Proof.
  split; [|split; [|split]].
  - rewrite GroupFacts.grouped_keys. apply StrFacts.sorted_unique_strictly.
  - intros k n. apply GroupFacts.grouped_In.
  - intros k n Hin. apply GroupFacts.grouped_In in Hin as [Hk ->].
    apply in_map_iff in Hk as (a & <- & Ha).
    assert (Hm : In a (filter (fun b => String.eqb (key b) (key a)) l)).
    { apply filter_In. split; [exact Ha | apply String.eqb_refl]. }
    unfold Sql.count.
    destruct (filter (fun b => String.eqb (key b) (key a)) l);
      [destruct Hm | cbn [List.length]; lia].
  - apply GroupFacts.grouped_count_total.
Qed.

(** The chart of a two-column result of keys and numbers. *)
Lemma chart_of_key_int_rows (c0 c1 : string) (bars : list (string * Z)) :
  first_column_chart (mkFrame [c0; c1] (Sql.key_int_rows bars)) =
  mkIndexed c0 (map (fun b => VText (fst b)) bars)
    (mkFrame [c1] (map (fun b => [VInt (snd b)]) bars)).
Proof.
  unfold first_column_chart, Sql.key_int_rows.
  cbn [columns rows hd tl]. now rewrite !map_map.
Qed.

(** X1.  In a run in which the driver does not fail, the Dashboard draws
    the three totals (the numbers of providers, receivers and listings
    in the store) and then the chart of listings by city, and leaves the
    store as it was.  The chart has one bar for each city that occurs in
    a listing, no city twice, the height of a bar is the number of
    listings of that city, and the heights add up to the total of
    listings shown in the third metric. *)
Theorem dashboard_totals (w : world) :
  fresh_handles w -> healthy w ->
  let db := store w in
  exists bars,
    screen (snd (dashboard w)) =
      screen w ++
      [Metric "Total Providers"
         (VInt (Z.of_nat (List.length (providers db))));
       Metric "Total Receivers"
         (VInt (Z.of_nat (List.length (receivers db))));
       Metric "Total Food Listings"
         (VInt (Z.of_nat (List.length (food_listings db))));
       BarChart
         (mkIndexed "Location" (map (fun b => VText (fst b)) bars)
            (mkFrame ["Listings"] (map (fun b => [VInt (snd b)]) bars)))]
    /\ NoDup (map fst bars)
    /\ (forall k n,
          In (k, n) bars <->
          In k (map f_Location (food_listings db))
          /\ n = Z.of_nat
                   (List.length
                      (filter (fun f => String.eqb (f_Location f) k)
                              (food_listings db))))
    /\ Sql.sum snd bars = Z.of_nat (List.length (food_listings db))
    /\ store (snd (dashboard w)) = db.
Proof.
  intros Hf Hh db.
  exists (Sql.grouped f_Location (@Sql.count _) (food_listings db)).
  destruct (dashboard_run Hf Hh) as (_ & Hs & Hscr).
  split; [|split; [|split; [|split]]].
  - rewrite Hscr. cbn [eval_query].
    now rewrite chart_of_key_int_rows.
  - rewrite GroupFacts.grouped_keys.
    apply StrFacts.sorted_unique_strictly.
  - intros k n. apply GroupFacts.grouped_In.
  - apply GroupFacts.grouped_count_total.
  - exact Hs.
Qed.

Lemma dashboard_totals_witness :
  fresh_handles Sample.sound_world
  /\ healthy Sample.sound_world
  /\ exists bars,
       screen (snd (dashboard Sample.sound_world)) =
         [Metric "Total Providers" (VInt 3);
          Metric "Total Receivers" (VInt 2);
          Metric "Total Food Listings" (VInt 3);
          BarChart
            (mkIndexed "Location" (map (fun b => VText (fst b)) bars)
               (mkFrame ["Listings"] (map (fun b => [VInt (snd b)]) bars)))]
       /\ Sql.sum snd bars = 3.
Proof.
  split; [constructor|]. split; [intros s; reflexivity|].
  destruct (@dashboard_totals Sample.sound_world (Forall_nil _)
              (fun s => eq_refl)) as (bars & Hscr & _ & _ & Hsum & _).
  exists bars. split; [exact Hscr | exact Hsum].
Defined.

(** X6.  The totals of report 3 (quantity by provider type) add up to
    the total of report 6 (quantity of all listings): report 3 has one
    row for each provider type that occurs in a listing, and the sum of
    its second column is the sum of the quantities of all listings,
    which is what report 6 shows in its single cell unless there is no
    listing, when that cell is NULL. *)
Theorem quantity_totals (now : date) (db : database) :
  let total := Sql.sum f_Quantity (food_listings db) in
  report_rows now db R6 =
    [[match food_listings db with
      | [] => VNull
      | _ :: _ => VInt total
      end]]
  /\ exists by_type,
       report_rows now db R3 = Sql.key_int_rows by_type
       /\ NoDup (map fst by_type)
       /\ (forall k, In k (map fst by_type) <->
                     In k (map f_Provider_Type (food_listings db)))
       /\ Sql.sum snd by_type = total.
Proof.
  intros total. split.
  - cbn [report_rows]. unfold Sql.sum_or_null.
    now destruct (food_listings db).
  - exists (Sql.grouped f_Provider_Type (Sql.sum f_Quantity)
              (food_listings db)).
    split; [reflexivity|]. rewrite GroupFacts.grouped_keys.
    split; [apply StrFacts.sorted_unique_strictly|]. split.
    + intros k. now rewrite StrFacts.sorted_In, StrFacts.unique_In.
    + apply GroupFacts.grouped_total.
Qed.

(* ================================================================== *)
(** ** Ranked reports *)
(* ================================================================== *)

Module RankFacts.

Lemma insert_desc_perm (x : string * Z) (l : list (string * Z)) :
  Permutation (x :: l) (Sql.insert_desc x l).
Proof.
  induction l as [|y l IH]; cbn [Sql.insert_desc]; [apply Permutation_refl|].
  destruct (snd y <=? snd x); [apply Permutation_refl|].
  eapply perm_trans; [apply perm_swap|]. now apply perm_skip.
Qed.

Lemma order_by_desc_perm (l : list (string * Z)) :
  Permutation l (Sql.order_by_desc l).
Proof.
  unfold Sql.order_by_desc.
  induction l as [|x l IH]; cbn [fold_right]; [constructor|].
  eapply perm_trans; [apply perm_skip, IH | apply insert_desc_perm].
Qed.

Lemma insert_desc_sorted (x : string * Z) (l : list (string * Z)) :
  StronglySorted listed_before l -> StronglySorted listed_before (Sql.insert_desc x l).
Proof.
  induction 1 as [|y l Hs IH Hall]; cbn [Sql.insert_desc].
  - repeat constructor.
  - destruct (Z.leb_spec (snd y) (snd x)) as [Hle|Hgt].
    + constructor; [now constructor|].
      constructor; [exact Hle|].
      revert Hall. apply Forall_impl. unfold listed_before. intros z Hz. lia.
    + constructor; [exact IH|].
      apply Forall_forall. intros z Hz.
      apply (Permutation_in _ (Permutation_sym (insert_desc_perm x l)))
        in Hz.
      destruct Hz as [<-|Hz]; [unfold listed_before; lia|].
      rewrite Forall_forall in Hall. now apply Hall.
Qed.

Lemma order_by_desc_sorted (l : list (string * Z)) :
  StronglySorted listed_before (Sql.order_by_desc l).
Proof.
  unfold Sql.order_by_desc.
  induction l as [|x l IH]; cbn [fold_right]; [constructor|].
  now apply insert_desc_sorted.
Qed.

End RankFacts.

(** X7.  Report 7 ranks the cities by their number of listings: its rows
    are the rows of the count by city, each city once with its number of
    listings, rearranged so that the numbers never increase down the
    table.  Hence, when there is a listing at all, the first row names a
    city with the largest number of listings. *)
Theorem report7_ranking (now : date) (db : database) :
  let here k :=
    Z.of_nat (List.length (filter (fun f => String.eqb (f_Location f) k)
                                  (food_listings db))) in
  exists ranked,
    report_rows now db R7 = Sql.key_int_rows ranked
    /\ Permutation
         (Sql.grouped f_Location (@Sql.count _) (food_listings db)) ranked
    /\ StronglySorted listed_before ranked
    /\ (forall k n, In (k, n) ranked ->
                    In k (map f_Location (food_listings db)) /\ n = here k)
    /\ (forall f, In f (food_listings db) ->
          exists k n rest,
            ranked = (k, n) :: rest /\ n = here k
            /\ here (f_Location f) <= n).
Proof.
  intros here.
  set (counts := Sql.grouped f_Location (@Sql.count _) (food_listings db)).
  exists (Sql.order_by_desc counts).
  pose proof (RankFacts.order_by_desc_perm counts) as Hperm.
  pose proof (RankFacts.order_by_desc_sorted counts) as Hsorted.
  assert (Hin : forall k n, In (k, n) (Sql.order_by_desc counts) ->
                  In k (map f_Location (food_listings db)) /\ n = here k).
  { intros k n H.
    apply (Permutation_in _ (Permutation_sym Hperm)) in H.
    now apply GroupFacts.grouped_In in H. }
  split; [reflexivity|]. split; [exact Hperm|]. split; [exact Hsorted|].
  split; [exact Hin|].
  intros f Hf.
  assert (Hmine : In (f_Location f, here (f_Location f))
                     (Sql.order_by_desc counts)).
  { apply (Permutation_in _ Hperm). apply GroupFacts.grouped_In.
    split; [now apply in_map | reflexivity]. }
  destruct (Sql.order_by_desc counts) as [|[k n] rest] eqn:E;
    [destruct Hmine|].
  exists k, n, rest. split; [reflexivity|].
  split; [apply (Hin k n); now left|].
  destruct Hmine as [[= -> ->]|Hrest]; [lia|].
  inversion Hsorted as [|? ? _ Hall]; subst.
  rewrite Forall_forall in Hall. exact (Hall _ Hrest).
Qed.

(** X8.  In a run in which the driver does not fail, the Report Runner
    performs exactly one read for the selected report, leaves the store
    as it was, and draws the selector of the fifteen labels and the
    table of the result; it adds the bar chart for every report but the
    provider contact list (4), the total quantity (6) and the expired
    items (15), whatever the store holds, also for an empty result. *)
Theorem report_runner_draws (r : report) (w : world) :
  fresh_handles w -> healthy w ->
  let h := next_handle w in
  let result_df := eval_query (queries r) (sql_now w) (store w) in
  fst (sql_analysis r w) = Ok tt
  /\ log (snd (sql_analysis r w)) = log w ++ [Opened h; ReadSql h; Closed h]
  /\ store (snd (sql_analysis r w)) = store w
  /\ screen (snd (sql_analysis r w)) =
       screen w ++
       Selectbox "Select a Query" (map report_label all_reports) ::
       Dataframe result_df ::
       (if table_only r then []
        else [BarChart (first_column_chart result_df)]).
Proof.
  intros Hf Hh h result_df.
  rewrite (sql_analysis_eq r Hf Hh). cbn [fst snd].
  split; [reflexivity|]. split; [reflexivity|]. split; [reflexivity|].
  assert (Hshape : Nat.eqb (shape1 result_df) 2 = negb (table_only r))
    by (destruct r; reflexivity).
  fold result_df. rewrite Hshape.
  unfold drawn, after_read, after_call. step_world.
  rewrite <- app_assoc. now destruct (table_only r).
Qed.

Lemma report_runner_draws_witness :
  fresh_handles Sample.empty_world
  /\ healthy Sample.empty_world
  /\ screen (snd (sql_analysis R1 Sample.empty_world)) =
       [Selectbox "Select a Query" (map report_label all_reports);
        Dataframe (mkFrame ["City"; "Provider_Count"] []);
        BarChart
          (mkIndexed "City" [] (mkFrame ["Provider_Count"] []))].
Proof.
  split; [constructor|]. split; [intros s; reflexivity|].
  destruct (@report_runner_draws R1 Sample.empty_world (Forall_nil _)
              (fun s => eq_refl)) as (_ & _ & _ & H).
  exact H.
Defined.

Lemma read_pages_read_only_witness :
  fresh_handles (Sample.failing_at Read)
  /\ store (snd (run_script Dashboard (Sample.failing_at Read))) =
       Sample.the_store.
Proof.
  split; [constructor|].
  refine (proj2 (@read_pages_read_only Dashboard (Sample.failing_at Read)
                   _ (Forall_nil _))).
  intros entered pressed. discriminate.
Defined.

(* ================================================================== *)
(** ** Listing Browser: what a selection shows *)
(* ================================================================== *)

Lemma keeps_spec (column : food_listing -> string) (choice : string)
    (f : food_listing) :
  keeps column choice f = true <-> choice = "All" \/ column f = choice.
Proof.
  unfold keeps. destruct (String.eqb_spec choice "All") as [->|Hne].
  - split; [now left | reflexivity].
  - rewrite String.eqb_eq. split; [now right | now intros [H|H]].
Qed.

Lemma filter_sorted (A : Type) (R : A -> A -> Prop) (p : A -> bool)
    (l : list A) :
  StronglySorted R l -> StronglySorted R (filter p l).
Proof.
  induction 1 as [|a l Hs IH Hall]; cbn [filter]; [constructor|].
  destruct (p a); [|exact IH].
  constructor; [exact IH|].
  rewrite Forall_forall in *. intros b Hb.
  apply Hall. now apply filter_In in Hb.
Qed.

(** X9.  The table of the Listing Browser shows a listing exactly when
    the listing is in the fetched set and, in each of the three
    dimensions, either ["All"] is selected or the listing has the
    selected value.  With ["All"] in all three controls it shows the
    whole set.  The rows shown keep the order they have in the fetched
    set: whatever order relation the fetched rows satisfy pairwise, the
    shown rows satisfy it too. *)
Theorem filter_listings_shows (city food_type meal_type : string)
    (df : list food_listing) :
  (forall f,
     In f (filter_listings city food_type meal_type df) <->
     In f df
     /\ (city = "All" \/ f_Location f = city)
     /\ (food_type = "All" \/ f_Food_Type f = food_type)
     /\ (meal_type = "All" \/ f_Meal_Type f = meal_type))
  /\ filter_listings "All" "All" "All" df = df
  /\ (forall R : food_listing -> food_listing -> Prop,
        StronglySorted R df ->
        StronglySorted R (filter_listings city food_type meal_type df))
  /\ (List.length (filter_listings city food_type meal_type df)
      <= List.length df)%nat.
Proof.
  split; [|split; [|split]].
  - intros f. rewrite filter_listings_conj, filter_In, !andb_true_iff,
      !keeps_spec. tauto.
  - reflexivity.
  - intros R Hs. rewrite filter_listings_conj. now apply filter_sorted.
  - rewrite filter_listings_conj. apply filter_length_le.
Qed.

(** X10.  A single filter set to a value offered by its selector never
    empties a non-empty listing set: the selector offers, besides
    ["All"], only values that occur in its column. *)
Theorem offered_choice_shows_rows (column : food_listing -> string)
    (choice : string) (df : list food_listing) :
  In choice (filter_options column df) -> df <> [] ->
  apply_filter column choice df <> [].
Proof.
  intros Hin Hne. rewrite apply_filter_keeps.
  apply filter_options_In in Hin.
  assert (Hex : exists f, In f df /\ keeps column choice f = true).
  { destruct Hin as [->|(f & Hf & E)].
    - destruct df as [|f df]; [contradiction|].
      exists f. split; [now left | reflexivity].
    - exists f. split; [exact Hf|]. apply keeps_spec. now right. }
  destruct Hex as (f & Hf & Hk).
  intros Hnil.
  assert (H : In f (filter (keeps column choice) df))
    by (apply filter_In; now split).
  rewrite Hnil in H. destruct H.
Qed.

Lemma offered_choice_shows_rows_witness :
  In "Pune" (filter_options f_Location (food_listings Sample.the_store))
  /\ food_listings Sample.the_store <> []
  /\ apply_filter f_Location "Pune" (food_listings Sample.the_store) <> [].
Proof.
  assert (H1 : In "Pune" (filter_options f_Location
                            (food_listings Sample.the_store))).
  { right. right. now left. }
  assert (H2 : food_listings Sample.the_store <> []) by discriminate.
  split; [exact H1|]. split; [exact H2|].
  exact (@offered_choice_shows_rows f_Location "Pune"
           (food_listings Sample.the_store) H1 H2).
Defined.

(** X11.  The option list of a selector has no entry twice exactly when
    no listing carries the literal value ["All"] in its column.  A
    listing that does makes ["All"] appear a second time among the
    options, and selecting it, like the first, applies no filter: the
    rows with the value ["All"] cannot be singled out. *)
Theorem all_is_reserved (column : food_listing -> string)
    (df : list food_listing) :
  (NoDup (filter_options column df) <-> ~ In "All" (map column df))
  /\ apply_filter column "All" df = df.
Proof.
  split; [|reflexivity].
  unfold filter_options. cbn [app].
  destruct (StrFacts.sorted_unique_strictly (map column df)) as [_ Hn].
  split.
  - intros H Hin. inversion H as [|? ? Hnot _]; subst. apply Hnot.
    now rewrite StrFacts.sorted_In, StrFacts.unique_In.
  - intros Hnot. constructor; [|exact Hn].
    now rewrite StrFacts.sorted_In, StrFacts.unique_In.
Qed.

(* ================================================================== *)
(** ** Claims Browser under unique identities *)
(* ================================================================== *)

Lemma filter_by_key (A : Type) (key : A -> Z) (k : Z) (l : list A) :
  NoDup (map key l) ->
  (List.length (filter (fun a => Z.eqb k (key a)) l) <= 1)%nat.
Proof.
  induction l as [|a l IH]; cbn [map filter List.length]; [lia|].
  intros Hn. inversion Hn as [|? ? Hnot Hn']; subst.
  destruct (Z.eqb_spec k (key a)) as [->|Hne]; [|now apply IH].
  cbn [List.length].
  assert (E : filter (fun b => key a =? key b) l = []).
  { destruct (filter (fun b => key a =? key b) l) as [|b r] eqn:E;
      [reflexivity|].
    assert (Hb : In b (filter (fun b => key a =? key b) l))
      by (rewrite E; now left).
    apply filter_In in Hb as [Hb Hk]. apply Z.eqb_eq in Hk.
    exfalso. apply Hnot. rewrite Hk. now apply in_map. }
  rewrite E. cbn [List.length]. lia.
Qed.

Lemma flat_map_length_le (A B : Type) (g : A -> list B) (l : list A) :
  (forall a, (List.length (g a) <= 1)%nat) ->
  (List.length (flat_map g l) <= List.length l)%nat.
Proof.
  intros Hg. induction l as [|a l IH]; cbn [flat_map List.length]; [lia|].
  rewrite length_app. specialize (Hg a). lia.
Qed.

Lemma flat_map_length_eq (A B : Type) (g : A -> list B) (l : list A) :
  (forall a, In a l -> List.length (g a) = 1%nat) ->
  List.length (flat_map g l) = List.length l.
Proof.
  induction l as [|a l IH]; intros Hg; cbn [flat_map List.length];
    [reflexivity|].
  rewrite length_app, (Hg a (or_introl eq_refl)), IH; [reflexivity|].
  intros b Hb. apply Hg. now right.
Qed.

Lemma claim_rows_at_most_one (db : database) (c : claim) :
  NoDup (map f_Food_ID (food_listings db)) ->
  NoDup (map r_Receiver_ID (receivers db)) ->
  (List.length (claim_rows db c) <= 1)%nat.
Proof.
  intros Hf Hr. unfold claim_rows.
  pose proof (filter_by_key f_Food_ID (c_Food_ID c) (food_listings db) Hf)
    as H1.
  pose proof (filter_by_key r_Receiver_ID (c_Receiver_ID c) (receivers db)
                Hr) as H2.
  destruct (filter (fun f => c_Food_ID c =? f_Food_ID f) (food_listings db))
    as [|f [|f' fs]]; cbn [flat_map List.length app] in *; try lia.
  rewrite app_nil_r, length_map. exact H2.
Qed.

(** X12.  When the identities of listings and of receivers are unique,
    the Claims Browser shows every claim at most once, so it never shows
    more rows than there are claims; it shows exactly one row for each
    claim, as many rows as claims, when in addition every claim refers
    to a listing and to a receiver of the store. *)
Theorem claims_shown_once (now : date) (db : database) :
  NoDup (map f_Food_ID (food_listings db)) ->
  NoDup (map r_Receiver_ID (receivers db)) ->
  let shown := rows (eval_query SELECT_claims now db) in
  (forall c, (List.length (claim_rows db c) <= 1)%nat)
  /\ (List.length shown <= List.length (claims db))%nat
  /\ ((forall c, In c (claims db) -> ~ dangling db c) ->
      List.length shown = List.length (claims db)).
Proof.
  intros Hf Hr shown.
  assert (Hone : forall c, (List.length (claim_rows db c) <= 1)%nat)
    by (intros c; now apply claim_rows_at_most_one).
  assert (Hshown : shown = flat_map (claim_rows db) (claims db))
    by apply claims_rows_by_claim.
  split; [exact Hone|]. rewrite Hshown. split.
  - now apply flat_map_length_le.
  - intros Hint. apply flat_map_length_eq. intros c Hc.
    specialize (Hone c).
    destruct (claim_rows db c) as [|row l] eqn:E; [|cbn [List.length] in *; lia].
    exfalso. apply (Hint c Hc).
    destruct (filter (fun f => c_Food_ID c =? f_Food_ID f)
                     (food_listings db)) as [|f fs] eqn:Ef.
    + left. intros f Hin Heq.
      assert (H : In f (filter (fun f => c_Food_ID c =? f_Food_ID f)
                               (food_listings db))).
      { apply filter_In. split; [exact Hin | now apply Z.eqb_eq]. }
      rewrite Ef in H. destruct H.
    + right. intros r Hin Heq.
      assert (H : In (Sql.claim_row (c, f, r)) (claim_rows db c)).
      { apply claim_rows_in. exists f, r.
        assert (Hfin : In f (filter (fun f => c_Food_ID c =? f_Food_ID f)
                                    (food_listings db)))
          by (rewrite Ef; now left).
        apply filter_In in Hfin as [Hfin Hfe]. apply Z.eqb_eq in Hfe.
        repeat split; auto. }
      rewrite E in H. destruct H.
Qed.

Lemma claims_shown_once_witness :
  NoDup (map f_Food_ID (food_listings Sample.the_store))
  /\ NoDup (map r_Receiver_ID (receivers Sample.the_store))
  /\ (List.length
        (rows (eval_query SELECT_claims Sample.the_day Sample.the_store))
      <= 4)%nat.
Proof.
  assert (H1 : NoDup (map f_Food_ID (food_listings Sample.the_store))).
  { cbn. repeat constructor; cbn; intuition discriminate. }
  assert (H2 : NoDup (map r_Receiver_ID (receivers Sample.the_store))).
  { cbn. repeat constructor; cbn; intuition discriminate. }
  split; [exact H1|]. split; [exact H2|].
  exact (proj1 (proj2 (@claims_shown_once Sample.the_day Sample.the_store
                         H1 H2))).
Defined.

(* ================================================================== *)
(** ** After a listing has been added *)
(* ================================================================== *)

(** The world that a committed submission leaves. *)
Lemma after_submission (entered : form) (w : world) :
  fresh_handles w -> healthy w ->
  let w1 := snd (add_new_food_listing entered true w) in
  fresh_handles w1 /\ healthy w1
  /\ store w1 = with_listing (store w) entered
  /\ sql_now w1 = sql_now w.
Proof.
  intros Hf Hh w1. subst w1.
  rewrite (add_new_food_listing_eq entered Hf Hh). cbn [snd].
  split; [|split; [exact Hh | split; reflexivity]].
  apply (@fresh_after_call (drawn w (form_widgets (today w)))
           (with_listing (store w) entered)).
  exact Hf.
Qed.

(** X13.  A listing added through the form is there for the next reads.
    After a committed submission, the Dashboard's count of listings is
    one more than before; the Listing Browser with ["All"] in its three
    controls shows the rows that were there, in their order, followed by
    the new row; its selectors offer the city, the food type and the meal
    type of the new row; and selecting these three values shows the new
    row. *)
Theorem added_listing_is_read (entered : form) (w : world) :
  fresh_handles w -> healthy w ->
  let before := food_listings (store w) in
  let new := listing_of_form (next_Food_ID before) entered in
  let w1 := snd (add_new_food_listing entered true w) in
  fst (count_metric T_food_listings w) =
    Ok (VInt (Z.of_nat (List.length before)))
  /\ fst (count_metric T_food_listings w1) =
       Ok (VInt (Z.of_nat (List.length before) + 1))
  /\ screen (snd (view_food_listings "All" "All" "All" w1)) =
       screen w1 ++
       [Selectbox "City" (filter_options f_Location (before ++ [new]));
        Selectbox "Food Type" (filter_options f_Food_Type (before ++ [new]));
        Selectbox "Meal Type" (filter_options f_Meal_Type (before ++ [new]));
        Dataframe (Pandas.listings_frame (before ++ [new]))]
  /\ In (location entered) (filter_options f_Location (before ++ [new]))
  /\ In (food_type entered) (filter_options f_Food_Type (before ++ [new]))
  /\ In (meal_type entered) (filter_options f_Meal_Type (before ++ [new]))
  /\ In new (filter_listings (location entered) (food_type entered)
               (meal_type entered) (food_listings (store w1))).
Proof.
  intros Hf Hh before new w1.
  destruct (after_submission entered Hf Hh) as (Hf1 & Hh1 & Hs1 & _).
  fold w1 in Hf1, Hh1, Hs1. clearbody w1.
  assert (Hl1 : food_listings (store w1) = before ++ [new])
    by (rewrite Hs1; reflexivity).
  assert (Hnew : In new (before ++ [new])).
  { apply in_or_app. right. left. reflexivity. }
  assert (Hopt : forall column,
            In (column new) (filter_options column (before ++ [new]))).
  { intros column. apply filter_options_In. right.
    exists new. split; [exact Hnew | reflexivity]. }
  split; [|split; [|split; [|split; [|split; [|split]]]]].
  - now rewrite (count_metric_ok T_food_listings Hf Hh).
  - rewrite (count_metric_ok T_food_listings Hf1 Hh1). cbn [fst row_count].
    rewrite Hl1, length_app. cbn [List.length]. do 2 f_equal. lia.
  - rewrite (view_food_listings_eq "All" "All" "All" Hf1 Hh1). cbn [snd].
    rewrite Hl1. reflexivity.
  - exact (Hopt f_Location).
  - exact (Hopt f_Food_Type).
  - exact (Hopt f_Meal_Type).
  - rewrite Hl1, filter_listings_conj. apply filter_In.
    split; [exact Hnew|].
    rewrite !andb_true_iff, !keeps_spec.
    split; [split|]; right; reflexivity.
Qed.

Lemma added_listing_is_read_witness :
  fresh_handles Sample.sound_world
  /\ healthy Sample.sound_world
  /\ fst (count_metric T_food_listings Sample.sound_world) = Ok (VInt 3)
  /\ fst (count_metric T_food_listings
            (snd (add_new_food_listing Sample.the_form true
                    Sample.sound_world))) = Ok (VInt (3 + 1)).
Proof.
  split; [constructor|]. split; [intros s; reflexivity|].
  destruct (@added_listing_is_read Sample.the_form Sample.sound_world
              (Forall_nil _) (fun s => eq_refl)) as (H0 & H1 & _).
  split; [exact H0 | exact H1].
Defined.

Lemma date_ltb_spec (d1 d2 : date) :
  date_ltb d1 d2 = true <->
  (year d1 < year d2
   \/ (year d1 = year d2
       /\ (month d1 < month d2
           \/ (month d1 = month d2 /\ day d1 < day d2))))%N.
Proof.
  unfold date_ltb.
  destruct (N.ltb_spec (year d1) (year d2));
    destruct (N.eqb_spec (year d1) (year d2));
    destruct (N.ltb_spec (month d1) (month d2));
    destruct (N.eqb_spec (month d1) (month d2));
    destruct (N.ltb_spec (day d1) (day d2));
    cbn [orb andb]; split; intros Hgoal; try reflexivity;
    try discriminate; lia.
Qed.

Lemma date_le_spec (d1 d2 : date) :
  date_le d1 d2 <-> ~ date_ltb d2 d1 = true.
Proof.
  unfold date_le, date_leb. destruct (date_ltb d2 d1); cbn [negb].
  - split; [discriminate | intros H; now destruct H].
  - split; [discriminate | reflexivity].
Qed.

Lemma date_le_trans (d1 d2 d3 : date) :
  date_le d1 d2 -> date_le d2 d3 -> date_le d1 d3.
Proof. rewrite !date_le_spec, !date_ltb_spec. lia. Qed.

(** X14.  A listing added through the form is not expired on the day it
    is added.  When the engine's date is not later than the date that
    the form takes as today, a committed submission that meets the
    constraint of the form on the expiry date leaves report 15 as it
    was: the new row is in the store and is not among the expired
    listings. *)
Theorem added_listing_not_expired (entered : form) (w : world) :
  fresh_handles w -> healthy w ->
  valid_date (sql_now w) -> valid_date (expiry entered) ->
  date_le (sql_now w) (today w) ->
  form_constraints (today w) entered ->
  let new := listing_of_form (next_Food_ID (food_listings (store w)))
               entered in
  let w1 := snd (add_new_food_listing entered true w) in
  In new (food_listings (store w1))
  /\ ~ In new (Sql.expired_listings (sql_now w1) (store w1))
  /\ eval_query (SELECT_report R15) (sql_now w1) (store w1) =
       eval_query (SELECT_report R15) (sql_now w) (store w).
Proof.
  intros Hf Hh Hnow Hexp Hclock [_ Hform] new w1.
  destruct (after_submission entered Hf Hh) as (_ & _ & Hs1 & Hn1).
  fold w1 in Hs1, Hn1. clearbody w1. rewrite Hs1, Hn1.
  assert (Hnot : Sql.expired (sql_now w) new = false).
  { rewrite (@expired_iff (sql_now w) (expiry entered) new Hnow Hexp eq_refl).
    pose proof (date_le_trans Hclock Hform) as Hle.
    apply date_le_spec in Hle.
    destruct (date_ltb (expiry entered) (sql_now w));
      [exfalso; apply Hle; reflexivity | reflexivity]. }
  assert (Hsame : Sql.expired_listings (sql_now w)
                    (with_listing (store w) entered) =
                  Sql.expired_listings (sql_now w) (store w)).
  { unfold Sql.expired_listings, with_listing. cbn [food_listings].
    fold new. rewrite filter_app. cbn [filter]. rewrite Hnot.
    apply app_nil_r. }
  split; [|split].
  - unfold with_listing. cbn [food_listings]. fold new.
    apply in_or_app. right. left. reflexivity.
  - rewrite Hsame. intros Hin. unfold Sql.expired_listings in Hin.
    apply filter_In in Hin as [_ Hin]. congruence.
  - cbn [eval_query report_rows]. now rewrite Hsame.
Qed.

Lemma added_listing_not_expired_witness :
  fresh_handles Sample.sound_world
  /\ healthy Sample.sound_world
  /\ valid_date (sql_now Sample.sound_world)
  /\ valid_date (expiry Sample.the_form)
  /\ date_le (sql_now Sample.sound_world) (today Sample.sound_world)
  /\ form_constraints (today Sample.sound_world) Sample.the_form
  /\ eval_query (SELECT_report R15) Sample.the_day
       (store (snd (add_new_food_listing Sample.the_form true
                      Sample.sound_world))) =
     eval_query (SELECT_report R15) Sample.the_day Sample.the_store.
Proof.
  assert (H1 : valid_date (sql_now Sample.sound_world)).
  { unfold valid_date. cbn. lia. }
  assert (H2 : valid_date (expiry Sample.the_form)).
  { unfold valid_date. cbn. lia. }
  assert (H3 : date_le (sql_now Sample.sound_world)
                       (today Sample.sound_world)) by reflexivity.
  assert (H4 : form_constraints (today Sample.sound_world) Sample.the_form).
  { split; [discriminate | reflexivity]. }
  split; [constructor|]. split; [intros s; reflexivity|].
  split; [exact H1|]. split; [exact H2|]. split; [exact H3|].
  split; [exact H4|].
  exact (proj2 (proj2 (@added_listing_not_expired Sample.the_form
                         Sample.sound_world (Forall_nil _)
                         (fun s => eq_refl) H1 H2 H3 H4))).
Defined.

(** X15.  On a store whose expiry dates are ISO dates, report 15 only
    grows with the date: a listing that it selects on one day it selects
    on every later day, and one that it does not select on a day it did
    not select on any earlier day. *)
Theorem expired_stays_expired (now later : date) (db : database) :
  valid_date now -> valid_date later -> iso_dated db ->
  date_le now later ->
  forall f,
    In f (Sql.expired_listings now db) ->
    In f (Sql.expired_listings later db).
Proof.
  intros Hnow Hlater Hiso Hle f Hin.
  unfold Sql.expired_listings in *.
  apply filter_In in Hin as [Hf Hexp]. apply filter_In. split; [exact Hf|].
  destruct (Hiso f Hf) as (d & Hd & E).
  rewrite (expired_iff f Hnow Hd E) in Hexp.
  rewrite (expired_iff f Hlater Hd E).
  apply date_le_spec in Hle.
  apply date_ltb_spec in Hexp. apply date_ltb_spec.
  rewrite date_ltb_spec in Hle. lia.
Qed.

Lemma expired_stays_expired_witness :
  valid_date (mkDate 2025 3 11)
  /\ valid_date Sample.the_day
  /\ iso_dated Sample.the_store
  /\ date_le (mkDate 2025 3 11) Sample.the_day
  /\ In (mkListing 4 "Soup" 7 "2025-03-10" 3 "Shop" "Pune" "Vegan" "Dinner")
        (Sql.expired_listings Sample.the_day Sample.the_store).
Proof.
  assert (H1 : valid_date (mkDate 2025 3 11)).
  { unfold valid_date. cbn. lia. }
  assert (H2 : valid_date Sample.the_day).
  { unfold valid_date. cbn. lia. }
  assert (H3 : date_le (mkDate 2025 3 11) Sample.the_day) by reflexivity.
  split; [exact H1|]. split; [exact H2|].
  split; [exact sample_store_iso_dated|]. split; [exact H3|].
  apply (@expired_stays_expired (mkDate 2025 3 11) Sample.the_day
           Sample.the_store H1 H2 sample_store_iso_dated H3).
  left. reflexivity.
Defined.

Module RankedFacts.

Lemma partners_as_filter (A B : Type) (on : A -> B -> bool) (a : A)
    (lb : list B) :
  map (pair a) (filter (on a) lb) =
  filter (fun ab => on (fst ab) (snd ab)) (map (fun y => (a, y)) lb).
Proof.
  induction lb as [|b lb IHb]; cbn [filter map fst snd]; [reflexivity|].
  destruct (on a b); cbn [map]; now rewrite IHb.
Qed.

Lemma join_as_filter (A B : Type) (on : A -> B -> bool) (la : list A)
    (lb : list B) :
  Sql.join on la lb =
  filter (fun ab => on (fst ab) (snd ab)) (list_prod la lb).
Proof.
  unfold Sql.join.
  induction la as [|a la IH]; cbn [flat_map list_prod]; [reflexivity|].
  now rewrite filter_app, IH, partners_as_filter.
Qed.

Lemma filter_filter (A : Type) (p q : A -> bool) (l : list A) :
  filter p (filter q l) = filter (fun x => q x && p x) l.
Proof.
  induction l as [|a l IH]; cbn [filter]; [reflexivity|].
  destruct (q a); cbn [filter andb]; [destruct (p a)|]; now rewrite IH.
Qed.

Lemma filter_pairs_left (A B : Type) (p : A -> bool) (a : A)
    (lb : list B) :
  filter (fun ab : A * B => p (fst ab)) (map (fun y => (a, y)) lb) =
  if p a then map (fun y => (a, y)) lb else [].
Proof.
  induction lb as [|b lb IHb]; cbn [map filter fst].
  - now destruct (p a).
  - rewrite IHb. now destruct (p a).
Qed.

Lemma list_prod_filter_left (A B : Type) (p : A -> bool) (la : list A)
    (lb : list B) :
  list_prod (filter p la) lb =
  filter (fun ab => p (fst ab)) (list_prod la lb).
Proof.
  induction la as [|a la IH]; cbn [filter list_prod]; [reflexivity|].
  rewrite filter_app, <- IH, filter_pairs_left.
  now destruct (p a).
Qed.

Lemma filter_of_map (A B : Type) (g : A -> B) (p : B -> bool)
    (l : list A) :
  filter p (map g l) = map g (filter (fun a => p (g a)) l).
Proof.
  induction l as [|a l IH]; cbn [map filter]; [reflexivity|].
  destruct (p (g a)); cbn [map]; now rewrite IH.
Qed.

Lemma sum_as_fold (A : Type) (key : A -> string) (wt : A -> Z)
    (l : list A) :
  fold_right Z.add 0 (map snd (map (fun a => (key a, wt a)) l)) =
  Sql.sum wt l.
Proof.
  unfold Sql.sum.
  induction l as [|a l IH]; cbn [map fold_right snd]; [reflexivity|].
  now rewrite IH.
Qed.

(** The rows of a ranked report of sums, in terms of what each grouped
    row contributes. *)
Lemma ranked_sum_In (A : Type) (key : A -> string) (wt : A -> Z)
    (l : list A) (k : string) (n : Z) :
  In (k, n) (Sql.order_by_desc (Sql.grouped key (Sql.sum wt) l)) <->
  In k (map fst (map (fun a => (key a, wt a)) l))
  /\ n = fold_right Z.add 0
           (map snd
              (filter (fun kw => String.eqb (fst kw) k)
                      (map (fun a => (key a, wt a)) l))).
Proof.
  rewrite filter_of_map, sum_as_fold, map_map. cbn [fst].
  rewrite <- GroupFacts.grouped_In. split.
  - apply Permutation_in, Permutation_sym, RankFacts.order_by_desc_perm.
  - apply Permutation_in, RankFacts.order_by_desc_perm.
Qed.

Lemma grouped_count_as_sum (A : Type) (key : A -> string) (l : list A) :
  Sql.grouped key (@Sql.count A) l = Sql.grouped key (Sql.sum (fun _ => 1)) l.
Proof.
  rewrite !GroupFacts.grouped_as_map. apply map_ext. intros k.
  now rewrite GroupFacts.count_as_sum.
Qed.

Lemma ranked_count_In (A : Type) (key : A -> string) (l : list A)
    (k : string) (n : Z) :
  In (k, n) (Sql.order_by_desc (Sql.grouped key (@Sql.count A) l)) <->
  In k (map fst (map (fun a => (key a, 1)) l))
  /\ n = fold_right Z.add 0
           (map snd
              (filter (fun kw => String.eqb (fst kw) k)
                      (map (fun a => (key a, 1)) l))).
Proof. rewrite grouped_count_as_sum. apply ranked_sum_In. Qed.

Lemma ranked_shape (counts : list (string * Z)) :
  NoDup (map fst counts) ->
  NoDup (map fst (Sql.order_by_desc counts))
  /\ StronglySorted listed_before (Sql.order_by_desc counts).
Proof.
  intros Hn. split; [|apply RankFacts.order_by_desc_sorted].
  eapply Permutation_NoDup; [|exact Hn].
  apply Permutation_map, RankFacts.order_by_desc_perm.
Qed.

Lemma grouped_NoDup (A : Type) (key : A -> string) (agg : list A -> Z)
    (l : list A) :
  NoDup (map fst (Sql.grouped key agg l)).
Proof.
  rewrite GroupFacts.grouped_keys. apply StrFacts.sorted_unique_strictly.
Qed.

(** The three-way join of report 10 with its WHERE clause, as one filter
    of the product. *)
Lemma completed_as_filter (db : database) :
  filter (fun cfp => String.eqb (c_Status (fst (fst cfp))) "Completed")
         (Sql.claims_listings_providers db) =
  filter (fun cfp =>
            (c_Food_ID (fst (fst cfp)) =? f_Food_ID (snd (fst cfp)))
            && (f_Provider_ID (snd (fst cfp)) =? p_Provider_ID (snd cfp))
            && String.eqb (c_Status (fst (fst cfp))) "Completed")
         (list_prod (list_prod (claims db) (food_listings db))
                    (providers db)).
Proof.
  unfold Sql.claims_listings_providers, Sql.claims_listings.
  rewrite (join_as_filter _ (claims db) (food_listings db)).
  rewrite join_as_filter, list_prod_filter_left.
  rewrite !filter_filter. apply filter_ext. intros cfp.
  now rewrite ?andb_assoc.
Qed.

End RankedFacts.

(** X16.  Each of the five ranked reports (5, 7, 10, 13 and 14) lists
    every group once, as a row of the group's name and its number, and
    the numbers never increase from one row to the next.  The groups are
    the names that occur among the rows the report joins and selects,
    and the number of a group is the sum of what those of its rows
    contribute: 1 each under COUNT, the quantity under SUM. *)
Theorem ranked_reports_descend (now : date) (db : database) (r : report) :
  ranked_report r = true ->
  exists ranked,
    report_rows now db r = Sql.key_int_rows ranked
    /\ NoDup (map fst ranked)
    /\ StronglySorted listed_before ranked
    /\ (forall k n,
          In (k, n) ranked <->
          In k (map fst (contributions db r))
          /\ n = fold_right Z.add 0
                   (map snd
                      (filter (fun kw => String.eqb (fst kw) k)
                              (contributions db r)))).
Proof.
  intros Hr.
  destruct r; try discriminate Hr; cbn [report_rows contributions];
    eexists; (split; [reflexivity|]);
    (split; [apply RankedFacts.ranked_shape, RankedFacts.grouped_NoDup|]);
    (split; [apply RankedFacts.ranked_shape, RankedFacts.grouped_NoDup|]);
    intros k n.
  - unfold Sql.claims_receivers. rewrite RankedFacts.join_as_filter.
    apply RankedFacts.ranked_count_In.
  - apply RankedFacts.ranked_count_In.
  - rewrite RankedFacts.completed_as_filter.
    apply RankedFacts.ranked_count_In.
  - unfold Sql.claims_listings. rewrite RankedFacts.join_as_filter.
    apply RankedFacts.ranked_count_In.
  - unfold Sql.listings_providers. rewrite RankedFacts.join_as_filter.
    apply (RankedFacts.ranked_sum_In (fun fp => p_Name (snd fp))
             (fun fp => f_Quantity (fst fp))).
Qed.

Lemma ranked_reports_descend_witness :
  ranked_report R14 = true
  /\ exists ranked,
       report_rows Sample.the_day Sample.the_store R14 =
         Sql.key_int_rows ranked
       /\ NoDup (map fst ranked)
       /\ StronglySorted listed_before ranked
       /\ (forall k n,
             In (k, n) ranked <->
             In k (map fst (contributions Sample.the_store R14))
             /\ n = fold_right Z.add 0
                      (map snd
                         (filter (fun kw => String.eqb (fst kw) k)
                                 (contributions Sample.the_store R14)))).
Proof.
  split; [reflexivity|].
  exact (@ranked_reports_descend Sample.the_day Sample.the_store R14
           eq_refl).
Defined.

(* ================================================================== *)
(** ** Joined reports under referential integrity *)
(* ================================================================== *)

Module JoinFacts.

(** With unique keys on the right, a row on the left that has a partner
    has exactly one. *)
Lemma one_partner (B : Type) (key : B -> Z) (k : Z) (lb : list B) :
  NoDup (map key lb) ->
  (exists b, In b lb /\ key b = k) ->
  List.length (filter (fun b => Z.eqb k (key b)) lb) = 1%nat.
Proof.
  intros Hn (b & Hb & Hk).
  pose proof (filter_by_key key k lb Hn) as Hle.
  assert (Hin : In b (filter (fun b => Z.eqb k (key b)) lb)).
  { apply filter_In. split; [exact Hb | now apply Z.eqb_eq]. }
  destruct (filter (fun b => Z.eqb k (key b)) lb) as [|x [|y l]];
    [destruct Hin | reflexivity | cbn [List.length] in Hle; lia].
Qed.

(** A join in which every left row has exactly one partner keeps the
    left rows, each once and in their order. *)
Lemma join_left (A B : Type) (on : A -> B -> bool) (la : list A)
    (lb : list B) :
  (forall a, In a la -> List.length (filter (on a) lb) = 1%nat) ->
  map fst (Sql.join on la lb) = la.
Proof.
  unfold Sql.join.
  induction la as [|a la IH]; intros H; cbn [flat_map map]; [reflexivity|].
  rewrite map_app, map_map, IH by (intros b Hb; apply H; now right).
  cbn [fst]. specialize (H a (or_introl eq_refl)).
  destruct (filter (on a) lb) as [|x [|y l]]; try discriminate H.
  reflexivity.
Qed.

Lemma sum_perm (A : Type) (f : A -> Z) (l1 l2 : list A) :
  Permutation l1 l2 -> Sql.sum f l1 = Sql.sum f l2.
Proof.
  induction 1 as [|a l1 l2 _ IH|a b l|l1 l2 l3 _ IH1 _ IH2];
    rewrite ?GroupFacts.sum_cons; lia.
Qed.

Lemma ranked_total (counts : list (string * Z)) :
  Sql.sum snd (Sql.order_by_desc counts) = Sql.sum snd counts.
Proof.
  symmetry. apply sum_perm, RankFacts.order_by_desc_perm.
Qed.

End JoinFacts.

(** X17.  When the identities of providers are unique and every listing
    belongs to a provider of the store, the totals of report 14
    (quantity donated by each provider) add up to the total of report 6,
    the sum of the quantities of all listings. *)
Theorem donated_totals (now : date) (db : database) :
  NoDup (map p_Provider_ID (providers db)) ->
  (forall f, In f (food_listings db) ->
             exists p, In p (providers db)
                       /\ p_Provider_ID p = f_Provider_ID f) ->
  exists by_provider,
    report_rows now db R14 = Sql.key_int_rows by_provider
    /\ NoDup (map fst by_provider)
    /\ Sql.sum snd by_provider = Sql.sum f_Quantity (food_listings db).
Proof.
  intros Hn Hint.
  exists (Sql.order_by_desc
            (Sql.grouped (fun fp => p_Name (snd fp))
               (Sql.sum (fun fp => f_Quantity (fst fp)))
               (Sql.listings_providers db))).
  split; [reflexivity|]. split.
  - eapply Permutation_NoDup.
    + apply Permutation_map, RankFacts.order_by_desc_perm.
    + rewrite GroupFacts.grouped_keys.
      apply StrFacts.sorted_unique_strictly.
  - rewrite JoinFacts.ranked_total, GroupFacts.grouped_total.
    rewrite <- (GroupFacts.sum_map (@fst food_listing provider) f_Quantity).
    unfold Sql.listings_providers. rewrite JoinFacts.join_left; [reflexivity|].
    intros f Hf. now apply JoinFacts.one_partner; [|apply Hint].
Qed.

Lemma donated_totals_witness :
  NoDup (map p_Provider_ID (providers Sample.the_store))
  /\ (forall f, In f (food_listings Sample.the_store) ->
                exists p, In p (providers Sample.the_store)
                          /\ p_Provider_ID p = f_Provider_ID f)
  /\ exists by_provider,
       report_rows Sample.the_day Sample.the_store R14 =
         Sql.key_int_rows by_provider
       /\ NoDup (map fst by_provider)
       /\ Sql.sum snd by_provider = 22.
Proof.
  assert (H1 : NoDup (map p_Provider_ID (providers Sample.the_store))).
  { cbn. repeat constructor; cbn; intuition discriminate. }
  assert (H2 : forall f, In f (food_listings Sample.the_store) ->
                 exists p, In p (providers Sample.the_store)
                           /\ p_Provider_ID p = f_Provider_ID f).
  { intros f [<-|[<-|[<-|[]]]].
    - eexists. split; [left; reflexivity | reflexivity].
    - eexists. split; [right; left; reflexivity | reflexivity].
    - eexists. split; [right; right; left; reflexivity | reflexivity]. }
  split; [exact H1|]. split; [exact H2|].
  exact (@donated_totals Sample.the_day Sample.the_store H1 H2).
Defined.

(** X18.  When the identities of listings and of receivers are unique
    and every claim refers to a listing and to a receiver of the store,
    each claim is counted exactly once in report 5 (claims by receiver),
    in report 9 (claims by food item) and in report 13 (claims by meal
    type): the counts of each of these reports add up to the number of
    claims. *)
Theorem claim_counts_total (now : date) (db : database) :
  NoDup (map f_Food_ID (food_listings db)) ->
  NoDup (map r_Receiver_ID (receivers db)) ->
  (forall c, In c (claims db) ->
     (exists f, In f (food_listings db) /\ f_Food_ID f = c_Food_ID c)
     /\ (exists r, In r (receivers db)
                   /\ r_Receiver_ID r = c_Receiver_ID c)) ->
  forall r, In r [R5; R9; R13] ->
  exists counts,
    report_rows now db r = Sql.key_int_rows counts
    /\ Sql.sum snd counts = Z.of_nat (List.length (claims db)).
Proof.
  intros Hf Hr Hint.
  assert (Hcl : List.length (Sql.claims_listings db)
                = List.length (claims db)).
  { rewrite <- (length_map (@fst claim food_listing)
                  (Sql.claims_listings db)).
    unfold Sql.claims_listings. rewrite JoinFacts.join_left; [reflexivity|].
    intros c Hc. apply JoinFacts.one_partner; [exact Hf|].
    apply (Hint c Hc). }
  assert (Hcr : List.length (Sql.claims_receivers db)
                = List.length (claims db)).
  { rewrite <- (length_map (@fst claim receiver) (Sql.claims_receivers db)).
    unfold Sql.claims_receivers. rewrite JoinFacts.join_left; [reflexivity|].
    intros c Hc. apply JoinFacts.one_partner; [exact Hr|].
    apply (Hint c Hc). }
  intros r [<-|[<-|[<-|[]]]]; cbn [report_rows];
    eexists; (split; [reflexivity|]);
    rewrite ?JoinFacts.ranked_total, GroupFacts.grouped_count_total;
    congruence.
Qed.

Lemma claim_counts_total_witness :
  NoDup (map f_Food_ID (food_listings Sample.tidy_store))
  /\ NoDup (map r_Receiver_ID (receivers Sample.tidy_store))
  /\ exists counts,
       report_rows Sample.the_day Sample.tidy_store R9 =
         Sql.key_int_rows counts
       /\ Sql.sum snd counts = 2.
Proof.
  assert (H1 : NoDup (map f_Food_ID (food_listings Sample.tidy_store))).
  { cbn. repeat constructor; cbn; intuition discriminate. }
  assert (H2 : NoDup (map r_Receiver_ID (receivers Sample.tidy_store))).
  { cbn. repeat constructor; cbn; intuition discriminate. }
  split; [exact H1|]. split; [exact H2|].
  refine (@claim_counts_total Sample.the_day Sample.tidy_store H1 H2 _ R9 _).
  - intros c [<-|[<-|[]]]; split; eexists.
    + split; [left; reflexivity | reflexivity].
    + split; [left; reflexivity | reflexivity].
    + split; [right; right; left; reflexivity | reflexivity].
    + split; [right; left; reflexivity | reflexivity].
  - right. left. reflexivity.
Defined.
